(** * finish_remaining_prs.py: the branch repair driver

    A shallow embedding of [src/finish_remaining_prs.py] and the proofs of
    its specified properties.

    The script is a straight line of shell invocations driven by a small
    amount of text processing.  Three layers are modelled:

    - [PyStr]: the operations of Python's [str] the script uses
      ([lower], [strip], [split], [in]).  A character is a code point below
      256 (the type [ascii] read as Latin-1), on which [str.lower] and
      [str.isspace] are written out in full; text outside that range is out
      of the model.
    - [Section Driver]: the operating system as an abstract state machine
      ([World], [spawn], [chdir]) and the script as a computation that
      threads the world, records every event it causes, may raise a Python
      exception and may block for ever.  [subprocess.run] refuses a command
      that holds U+0000 ([ValueError], no child is started); a child runs
      for some duration or never exits; with a timeout a child that
      overruns it is killed ([TimeoutExpired]), without one the call waits,
      for ever if the child never exits.
    - [Mock]: a scripted executor, the concrete world used to run the
      driver on explicit inputs.

    Bounds of the model.  The captured output of a child is text: on bytes
    that do not decode the real [subprocess.run] raises
    [UnicodeDecodeError], which the script does not catch, and such children
    are not among the inputs.  The shell can always be started, and [print]
    does not fail. *)

From Stdlib Require Import Bool Arith NArith ZArith Lia List Ascii String.
Import ListNotations.

Local Open Scope string_scope.
Local Open Scope list_scope.

(** ** Python strings *)

Module PyStr.

(** [str.isspace] on one character: U+0009..U+000D, U+001C..U+0020, U+0085
    and U+00A0 are the white-space code points below 256. *)
Definition isspace (c : ascii) : bool :=
  let n := N_of_ascii c in
  (((9 <=? n) && (n <=? 13)) || ((28 <=? n) && (n <=? 32))
   || (n =? 133) || (n =? 160))%N.

(** [str.lower] on one character: A..Z and the Latin-1 capitals U+00C0..U+00DE
    (the multiplication sign U+00D7 apart) move up by 32. *)
Definition lower_char (c : ascii) : ascii :=
  let n := N_of_ascii c in
  if (((65 <=? n) && (n <=? 90))
      || ((192 <=? n) && (n <=? 222) && negb (n =? 215)))%N
  then ascii_of_N (n + 32) else c.

(** [s.lower()] *)
Fixpoint lower (s : string) : string :=
  match s with
  | EmptyString => EmptyString
  | String c s' => String (lower_char c) (lower s')
  end.

(** [s.lstrip()] *)
Fixpoint lstrip (s : string) : string :=
  match s with
  | EmptyString => EmptyString
  | String c s' => if isspace c then lstrip s' else s
  end.

(** [s.rstrip()]: a character goes when it is white space and so is all that
    follows it. *)
Fixpoint rstrip (s : string) : string :=
  match s with
  | EmptyString => EmptyString
  | String c s' =>
      match rstrip s' with
      | EmptyString => if isspace c then EmptyString else String c EmptyString
      | r => String c r
      end
  end.

(** [s.strip()] *)
Definition strip (s : string) : string := rstrip (lstrip s).

(** [s.split(sep)] for a one-character separator: never the empty list. *)
Fixpoint split_on (sep : ascii) (s : string) : list string :=
  match s with
  | EmptyString => [EmptyString]
  | String c s' =>
      if Ascii.eqb c sep then EmptyString :: split_on sep s'
      else match split_on sep s' with
           | [] => [String c EmptyString]
           | field :: fields => String c field :: fields
           end
  end.

(** [s.split()]: the maximal runs of characters that are not white space.
    [tok] is the run read so far. *)
Fixpoint split_from (tok : string) (s : string) : list string :=
  match s with
  | EmptyString => match tok with EmptyString => [] | _ => [tok] end
  | String c s' =>
      if isspace c
      then match tok with
           | EmptyString => split_from EmptyString s'
           | _ => tok :: split_from EmptyString s'
           end
      else split_from (tok ++ String c EmptyString)%string s'
  end.

Definition split (s : string) : list string := split_from EmptyString s.

(** [s.startswith(p)] *)
Fixpoint startswith (p s : string) : bool :=
  match p, s with
  | EmptyString, _ => true
  | String _ _, EmptyString => false
  | String a p', String b s' => Ascii.eqb a b && startswith p' s'
  end.

(** [needle in hay] *)
Fixpoint contains (needle hay : string) : bool :=
  startswith needle hay
  || match hay with
     | EmptyString => false
     | String _ hay' => contains needle hay'
     end.

(** Truth value of a [str]: the empty string is false. *)
Definition truthy (s : string) : bool :=
  match s with EmptyString => false | _ => true end.

(** ['\0' in s] *)
Fixpoint has_nul (s : string) : bool :=
  match s with
  | EmptyString => false
  | String c s' => Ascii.eqb c "000" || has_nul s'
  end.

End PyStr.

(** ** Processes, exceptions and events *)

(** [subprocess.CompletedProcess] with [capture_output=True, text=True]. *)
Record CompletedProcess := {
  returncode : Z;
  stdout : string;
  stderr : string
}.


(** What a spawned shell command does when left alone: it runs for
    [duration] time units and then exits with [exit], or it never exits
    ([duration] is [None]). *)
Record child := {
  duration : option nat;
  exit : CompletedProcess
}.

(** The child exits on its own within [t] time units. *)
Definition ends_within (t : nat) (p : child) : bool :=
  match duration p with
  | Some d => (d <=? t)%nat
  | None => false
  end.

(** The Python exceptions the script can meet. *)
Inductive exn :=
| IndexError
| TimeoutExpired (cmd : string) (timeout : nat)
| OSError (path : string)
| ValueError.

(** How a computation ends: it returns, it raises, or it never comes back
    from a call. *)
Inductive result (A : Type) :=
| Returned (a : A)
| Raised (e : exn)
| Blocked.
Arguments Returned {A} a.
Arguments Raised {A} e.
Arguments Blocked {A}.

(** How [subprocess.run] saw a child end; [Hung] is the child that never
    exits under a call without a timeout. *)
Inductive outcome :=
| Exited (r : CompletedProcess)
| Expired
| Hung.

(** [returncode == 0]; only a child that exited has a return code. *)
Definition succeeded (o : outcome) : bool :=
  match o with
  | Exited r => (returncode r =? 0)%Z
  | Expired => false
  | Hung => false
  end.

(** One [subprocess.run]: the shell command, the [timeout=] argument and how
    it ended. *)
Record call := Call {
  call_cmd : string;
  call_timeout : option nat;
  call_outcome : outcome
}.

(** The lines the script prints, one constructor per [print] of the source
    with the interpolated values as arguments. *)
Inductive message :=
| msg_start                        (* main, line 23 *)
| msg_exec (cmd : string)          (* run_cmd, line 11 *)
| msg_stdout (text : string)       (* run_cmd, line 13 *)
| msg_stderr (text : string)       (* run_cmd, line 15 *)
| msg_timeout (cmd : string)       (* run_cmd, line 18 *)
| msg_repair (branch : string)     (* line 37 *)
| msg_searching                    (* line 45 *)
| msg_available                    (* line 51 *)
| msg_commit (line : string)       (* line 53 *)
| msg_selected (hash : string)     (* line 64 *)
| msg_pick_ok                      (* line 66 *)
| msg_pick_conflict                (* line 68 *)
| msg_resolved                     (* line 73 *)
| msg_unresolved                   (* line 75 *)
| msg_no_commit                    (* line 79 *)
| msg_replace                      (* line 83 *)
| msg_pushing                      (* line 88 *)
| msg_repaired (branch : string)   (* line 90 *)
| msg_push_failed (branch : string)(* line 92 *)
| msg_done.                        (* line 98 *)

(** [Spawn]: a child was started; [Refused]: [subprocess.run] was handed the
    command and raised before starting any child. *)
Inductive event :=
| Spawn (c : call)
| Refused (cmd : string) (timeout : option nat)
| Print (m : message)
| Chdir (path : string) (ok : bool).

(** The calls of a trace that started a child, in order. *)
Fixpoint calls (t : list event) : list call :=
  match t with
  | [] => []
  | Spawn c :: t' => c :: calls t'
  | _ :: t' => calls t'
  end.

(** The shell commands handed to [subprocess.run] in a trace, in order,
    started or refused. *)
Fixpoint commands (t : list event) : list string :=
  match t with
  | [] => []
  | Spawn c :: t' => call_cmd c :: commands t'
  | Refused cmd _ :: t' => cmd :: commands t'
  | _ :: t' => commands t'
  end.

(** The lines printed in a trace, in order. *)
Fixpoint printed (t : list event) : list message :=
  match t with
  | [] => []
  | Print m :: t' => m :: printed t'
  | _ :: t' => printed t'
  end.

(** ** Commit selection (main, lines 50 and 55-61) *)

(** [result.stdout.strip().split('\n')] *)
Definition commit_lines (out : string) : list string :=
  PyStr.split_on "010" (PyStr.strip out).

Definition keywords : list string := ["test"; "feat:"; "add"].

(** [any(keyword in commit.lower() for keyword in ['test', 'feat:', 'add'])] *)
Definition has_keyword (commit : string) : bool :=
  existsb (fun keyword => PyStr.contains keyword (PyStr.lower commit)) keywords.

(** ['cargo.lock' not in commit.lower() and 'format' not in commit.lower()] *)
Definition not_excluded (commit : string) : bool :=
  negb (PyStr.contains "cargo.lock" (PyStr.lower commit))
  && negb (PyStr.contains "format" (PyStr.lower commit)).

(** [xs[0]] *)
Definition item0 {A : Type} (xs : list A) : result A :=
  match xs with
  | [] => Raised IndexError
  | x :: _ => Returned x
  end.

(** The loop of lines 56-61: [test_commit] starts as [None]; the first line
    that passes both tests sets it to [commit.split()[0]] and breaks. *)
Fixpoint select_commit (commits : list string) : result (option string) :=
  match commits with
  | [] => Returned None
  | commit :: rest =>
      if has_keyword commit then
        if not_excluded commit then
          match item0 (PyStr.split commit) with
          | Returned tok => Returned (Some tok)
          | Raised e => Raised e
          | Blocked => Blocked
          end
        else select_commit rest
      else select_commit rest
  end.

(** Truth value of [test_commit]: [None] and the empty string are false. *)
Definition truthy_commit (test_commit : option string) : bool :=
  match test_commit with
  | Some h => PyStr.truthy h
  | None => false
  end.

(** A [for] body either runs to its end or leaves through [continue]. *)
Inductive flow := Next | Continue.

(** The table of line 26. *)
Definition remaining_branches : list (string * string) :=
  [("feature/add-server-components-tests", "7c50378");
   ("feature/add-integration-tests", "69f2d0a")].

(** Exit status of the interpreter: 0 when the script runs to its end, 1 when
    an exception reaches the top level, none while the script is blocked. *)
Definition exit_status {A : Type} (r : result A) : option Z :=
  match r with
  | Returned _ => Some 0%Z
  | Raised _ => Some 1%Z
  | Blocked => None
  end.

(** ** The driver *)

Section Driver.

(** The operating system: its state, what a shell command does in a state,
    and whether a directory can be entered. *)
Variable World : Type.
Variable spawn : World -> string -> option nat -> child * World.
Variable chdir : World -> string -> option World.

(** A computation threads the world, may raise or block, and records its
    events. *)
Definition M (A : Type) : Type := World -> result A * World * list event.

Definition ret {A : Type} (a : A) : M A := fun w => (Returned a, w, []).

Definition raise {A : Type} (e : exn) : M A := fun w => (Raised e, w, []).

Definition bind {A B : Type} (m : M A) (f : A -> M B) : M B :=
  fun w =>
    match m w with
    | (Returned a, w1, t1) =>
        match f a w1 with
        | (r, w2, t2) => (r, w2, t1 ++ t2)
        end
    | (Raised e, w1, t1) => (Raised e, w1, t1)
    | (Blocked, w1, t1) => (Blocked, w1, t1)
    end.

(** [try: m  except <handled>: h]: [handler e] is [None] for an exception the
    clause does not name. *)
Definition try_except {A : Type} (m : M A) (handler : exn -> option (M A)) : M A :=
  fun w =>
    match m w with
    | (Returned a, w1, t1) => (Returned a, w1, t1)
    | (Raised e, w1, t1) =>
        match handler e with
        | Some h => match h w1 with (r, w2, t2) => (r, w2, t1 ++ t2) end
        | None => (Raised e, w1, t1)
        end
    | (Blocked, w1, t1) => (Blocked, w1, t1)
    end.

Definition lift {A : Type} (r : result A) : M A := fun w => (r, w, []).

Definition print (m : message) : M unit := fun w => (Returned tt, w, [Print m]).

Definition when (b : bool) (m : M unit) : M unit := if b then m else ret tt.

Notation "x <- m ;; k" := (bind m (fun x => k))
  (at level 61, m at next level, right associativity).
Notation "m ;; k" := (bind m (fun _ => k))
  (at level 61, right associativity).

(** [for x in xs: body] *)
Fixpoint for_each {A : Type} (xs : list A) (body : A -> M unit) : M unit :=
  match xs with
  | [] => ret tt
  | x :: xs' => body x ;; for_each xs' body
  end.

(** [os.chdir(path)] *)
Definition os_chdir (path : string) : M unit :=
  fun w =>
    match chdir w path with
    | Some w' => (Returned tt, w', [Chdir path true])
    | None => (Raised (OSError path), w, [Chdir path false])
    end.

(** [subprocess.run(cmd, shell=True, capture_output=True, text=True,
    timeout=timeout)].  A command that holds U+0000 is refused with
    [ValueError] before any child is started.  With a timeout, a child that
    does not exit within it is killed and [TimeoutExpired] is raised; without
    one the call waits for the child, and never returns when the child never
    exits. *)
Definition subprocess_run (cmd : string) (timeout : option nat) : M CompletedProcess :=
  fun w =>
    if PyStr.has_nul cmd then (Raised ValueError, w, [Refused cmd timeout])
    else
      match spawn w cmd timeout with
      | (p, w') =>
          let completed :=
            (Returned (exit p), w', [Spawn (Call cmd timeout (Exited (exit p)))]) in
          match timeout with
          | Some t =>
              if ends_within t p then completed
              else (Raised (TimeoutExpired cmd t), w', [Spawn (Call cmd timeout Expired)])
          | None =>
              match duration p with
              | Some _ => completed
              | None => (Blocked, w', [Spawn (Call cmd timeout Hung)])
              end
          end
      end.

(** [run_cmd], lines 7-19. *)
Definition run_cmd (cmd : string) : M bool :=
  try_except
    (result <- subprocess_run cmd (Some 30) ;;
     print (msg_exec cmd) ;;
     when (PyStr.truthy (stdout result))
          (print (msg_stdout (PyStr.strip (stdout result)))) ;;
     when (PyStr.truthy (stderr result))
          (print (msg_stderr (PyStr.strip (stderr result)))) ;;
     ret (returncode result =? 0)%Z)
    (fun e =>
       match e with
       | TimeoutExpired _ _ => Some (print (msg_timeout cmd) ;; ret false)
       | _ => None
       end).

(** Lines 82-96: replace the original branch, push, clean up. *)
Definition publish (branch_name clean_branch : string) : M unit :=
  print msg_replace ;;
  run_cmd ("git checkout " ++ branch_name)%string ;;
  run_cmd ("git reset --hard " ++ clean_branch)%string ;;
  print msg_pushing ;;
  pushed <- run_cmd ("git push --force origin " ++ branch_name)%string ;;
  (if pushed then print (msg_repaired branch_name)
   else print (msg_push_failed branch_name)) ;;
  run_cmd ("git branch -D " ++ clean_branch)%string ;;
  run_cmd "git checkout main" ;;
  ret tt.

(** Lines 63-80: replay the selected commit, or give the branch up. *)
Definition replay (test_commit : option string) : M flow :=
  let abandon := print msg_no_commit ;; ret Continue in
  match test_commit with
  | Some h =>
      if PyStr.truthy h then
        print (msg_selected h) ;;
        picked <- run_cmd ("git cherry-pick " ++ h)%string ;;
        if picked then print msg_pick_ok ;; ret Next
        else
          print msg_pick_conflict ;;
          run_cmd "git checkout --theirs Cargo.lock || true" ;;
          run_cmd "git add Cargo.lock || true" ;;
          continued <- run_cmd "git cherry-pick --continue" ;;
          if continued then print msg_resolved ;; ret Next
          else
            print msg_unresolved ;;
            run_cmd "git cherry-pick --abort" ;;
            ret Continue
      else abandon
  | None => abandon
  end.

(** The body of the [for] of line 36. *)
Definition repair_branch (target : string * string) : M unit :=
  let '(branch_name, commit_hash) := target in
  print (msg_repair branch_name) ;;
  let clean_branch := (branch_name ++ "-clean")%string in
  run_cmd ("git branch -D " ++ clean_branch ++ " 2>/dev/null || true")%string ;;
  run_cmd ("git checkout -b " ++ clean_branch)%string ;;
  print msg_searching ;;
  result <- subprocess_run
              ("git log --oneline origin/" ++ branch_name ++ " | head -10")%string None ;;
  ctl <- (if (returncode result =? 0)%Z then
            let commits := commit_lines (stdout result) in
            print msg_available ;;
            for_each commits (fun commit => print (msg_commit commit)) ;;
            test_commit <- lift (select_commit commits) ;;
            replay test_commit
          else ret Next) ;;
  match ctl with
  | Continue => ret tt
  | Next => publish branch_name clean_branch
  end.

(** [main] with the table of line 26 as an argument. *)
Definition driver (table : list (string * string)) : M unit :=
  print msg_start ;;
  os_chdir "/workspace" ;;
  run_cmd "git checkout main" ;;
  for_each table repair_branch ;;
  print msg_done.

(** [main], lines 21-98. *)
Definition main : M unit := driver remaining_branches.

(** What a computation returns, and the events it causes, from a world. *)
Definition value_of {A : Type} (m : M A) (w : World) : result A := fst (fst (m w)).
Definition world_of {A : Type} (m : M A) (w : World) : World := snd (fst (m w)).
Definition events_of {A : Type} (m : M A) (w : World) : list event := snd (m w).
Definition calls_of {A : Type} (m : M A) (w : World) : list call := calls (events_of m w).
Definition commands_of {A : Type} (m : M A) (w : World) : list string :=
  commands (events_of m w).

(** [m], started in [w], ends with [r] in the world [w'] after starting the
    calls [cs], having handed the commands [ks] to [subprocess.run]. *)
Definition runs {A : Type} (m : M A) (w : World) (r : result A) (w' : World)
    (cs : list call) (ks : list string) : Prop :=
  exists t, m w = (r, w', t) /\ calls t = cs /\ commands t = ks.

End Driver.

Arguments ret {World A} a _.
Arguments raise {World A} e _.
Arguments bind {World A B} m f _.
Arguments try_except {World A} m handler _.
Arguments lift {World A} r _.
Arguments print {World} m _.
Arguments when {World} b m _.
Arguments for_each {World A} xs body _.
Arguments os_chdir {World} chdir path _.
Arguments subprocess_run {World} spawn cmd timeout _.
Arguments run_cmd {World} spawn cmd _.
Arguments publish {World} spawn branch_name clean_branch _.
Arguments replay {World} spawn test_commit _.
Arguments repair_branch {World} spawn target _.
Arguments driver {World} spawn chdir table _.
Arguments main {World} spawn chdir _.
Arguments runs {World A} m w r w' cs ks.
Arguments value_of {World A} m w.
Arguments world_of {World A} m w.
Arguments events_of {World A} m w.
Arguments calls_of {World A} m w.
Arguments commands_of {World A} m w.

(** ** A scripted executor *)

Module Mock.

(** The world is the list of children still to be handed out; when the script
    is used up every further command exits 0 at once with no output. *)
Definition World : Type := list child.

Definition quiet : child :=
  {| duration := Some 0; exit := {| returncode := 0; stdout := ""; stderr := "" |} |}.

Definition exits (rc : Z) (out : string) : child :=
  {| duration := Some 1; exit := {| returncode := rc; stdout := out; stderr := "" |} |}.

Definition slow (d : nat) (rc : Z) (out : string) : child :=
  {| duration := Some d; exit := {| returncode := rc; stdout := out; stderr := "" |} |}.

Definition spawn (w : World) (cmd : string) (timeout : option nat) : child * World :=
  match w with
  | p :: w' => (p, w')
  | [] => (quiet, [])
  end.

(** Every directory exists. *)
Definition chdir (w : World) (path : string) : option World := Some w.

(** The repair of one branch, and the whole script, on the scripted
    executor. *)
Definition repair (target : string * string) : M World unit :=
  repair_branch spawn target.

Definition script : M World unit := main spawn chdir.

(** Sample log windows; [git log] ends every line with a newline. *)
Definition nl : string := String "010" EmptyString.

Definition window : string :=
  ("abc1234 feat: add integration tests" ++ nl
   ++ "def5678 chore: bump Cargo.lock" ++ nl)%string.

Definition window_reversed : string :=
  ("def5678 chore: bump Cargo.lock" ++ nl
   ++ "abc1234 feat: add integration tests" ++ nl)%string.

Definition misleading_window : string :=
  ("add1234 chore: bump deps" ++ nl
   ++ "abc1234 feat: add integration tests" ++ nl)%string.

Definition lockfile_window : string :=
  ("def5678 chore: bump Cargo.lock" ++ nl)%string.

(** The second row of the table. *)
Definition target : string * string := ("feature/add-integration-tests", "69f2d0a").







(** A window whose only keyword sits in the hash, and one whose first token
    holds U+0000. *)
Definition hash_only_window : string := ("add1234 chore: bump deps" ++ nl)%string.




Definition hash_only : World := [quiet; quiet; exits 0 hash_only_window].


Definition pick_succeeds : World := [quiet; quiet; exits 0 window].

Definition pick_resolved : World := [quiet; quiet; exits 0 window; exits 1 ""].

Definition pick_aborted : World :=
  [quiet; quiet; exits 0 window; exits 1 ""; quiet; quiet; exits 1 ""].

Definition no_candidate : World := [quiet; quiet; exits 0 lockfile_window].

(** A script for the whole run: [git checkout main] first, then the first
    repair, whose log takes 31 time units. *)
Definition slow_log : World := [quiet; quiet; quiet; slow 31 0 window].


(** A machine without the working directory. *)
Definition no_workspace (w : World) (path : string) : option World := None.

(** A child that ends in time with text on both streams, and one that is
    still running when the timeout of [run_cmd] expires. *)
Definition chatty : child :=
  {| duration := Some 2;
     exit := {| returncode := 0;
                stdout := ("  Everything up-to-date" ++ nl)%string;
                stderr := "warning: refname is ambiguous" |} |}.

Definition stuck : child := slow 31 0 "late".

End Mock.

(** ** Vocabulary of the specification *)

(** [needle] is a substring of [hay]. *)
Definition occurs_in (needle hay : string) : Prop :=
  exists pre post, hay = (pre ++ needle ++ post)%string.

(** [text] contains [word], case-insensitively. *)
Definition mentions (word text : string) : Prop :=
  occurs_in word (PyStr.lower text).

(** The keyword rule: one of the keywords, and neither excluded word. *)
Definition eligible (text : string) : Prop :=
  (exists kw, In kw keywords /\ mentions kw text)
  /\ ~ mentions "cargo.lock" text /\ ~ mentions "format" text.

(** Every character of [s] is white space. *)
Fixpoint blank (s : string) : bool :=
  match s with
  | EmptyString => true
  | String c s' => PyStr.isspace c && blank s'
  end.

(** The first white-space separated token of a line, when it has one. *)
Definition hash_token (line : string) : option string := hd_error (PyStr.split line).

(** [line] is the first element of [lines] with [P]. *)
Definition first_such (P : string -> Prop) (lines : list string) (line : string) : Prop :=
  exists before after,
    lines = before ++ line :: after /\ Forall (fun l => ~ P l) before /\ P line.

(** [sel] is the hash token of the first line with [P], or nothing when no
    line has [P]. *)
Definition selects (P : string -> Prop) (lines : list string) (sel : option string) : Prop :=
  match sel with
  | Some h => exists line, first_such P lines line /\ hash_token line = Some h
  | None => Forall (fun l => ~ P l) lines
  end.

(** A commit line reads [<short-hash> <subject>]: the subject is what follows
    the first token and the white space after it. *)
Fixpoint skip_token (s : string) : string :=
  match s with
  | EmptyString => EmptyString
  | String c s' => if PyStr.isspace c then s else skip_token s'
  end.

Definition subject (line : string) : string :=
  PyStr.lstrip (skip_token (PyStr.lstrip line)).

(** No character of [s] is white space. *)
Fixpoint visible (s : string) : bool :=
  match s with
  | EmptyString => true
  | String c s' => negb (PyStr.isspace c) && visible s'
  end.

(** [s] is empty or starts with white space. *)
Definition at_boundary (s : string) : bool :=
  match s with
  | EmptyString => true
  | String c _ => PyStr.isspace c
  end.

(** [h] is the first token of [line]: white space, then [h], which is not
    empty and has no white space, then the end of the line or white space. *)
Definition first_token (line h : string) : Prop :=
  exists ws rest,
    line = (ws ++ h ++ rest)%string
    /\ blank ws = true /\ h <> EmptyString /\ visible h = true
    /\ at_boundary rest = true.

(** [sep.join(fields)] for a one-character separator. *)
Fixpoint join (sep : ascii) (fields : list string) : string :=
  match fields with
  | [] => EmptyString
  | [f] => f
  | f :: fs => (f ++ String sep (join sep fs))%string
  end.

(** The two lines that report the fate of a push. *)
Definition is_verdict (m : message) : bool :=
  match m with
  | msg_repaired _ | msg_push_failed _ => true
  | _ => false
  end.

Definition verdicts (t : list event) : list message := filter is_verdict (printed t).

(** The keyword rule read on the subject text alone. *)
Definition subject_eligible (line : string) : Prop := eligible (subject line).

(** The commands of one repair, by name. *)
Definition clean (b : string) : string := (b ++ "-clean")%string.
Definition cmd_main : string := "git checkout main".
Definition cmd_delete_stale (b : string) : string :=
  ("git branch -D " ++ clean b ++ " 2>/dev/null || true")%string.
Definition cmd_create (b : string) : string := ("git checkout -b " ++ clean b)%string.
Definition cmd_log (b : string) : string :=
  ("git log --oneline origin/" ++ b ++ " | head -10")%string.
Definition cmd_pick (h : string) : string := ("git cherry-pick " ++ h)%string.
Definition cmd_theirs : string := "git checkout --theirs Cargo.lock || true".
Definition cmd_add : string := "git add Cargo.lock || true".
Definition cmd_continue : string := "git cherry-pick --continue".
Definition cmd_abort : string := "git cherry-pick --abort".
Definition cmd_checkout (b : string) : string := ("git checkout " ++ b)%string.
Definition cmd_reset (b : string) : string := ("git reset --hard " ++ clean b)%string.
Definition cmd_push (b : string) : string := ("git push --force origin " ++ b)%string.
Definition cmd_delete (b : string) : string := ("git branch -D " ++ clean b)%string.

(** A call made through [run_cmd], and the log call. *)
Definition ran (cmd : string) (o : outcome) : call := Call cmd (Some 30) o.
Definition logged (b : string) (r : CompletedProcess) : call :=
  Call (cmd_log b) None (Exited r).

(** The two calls that open a repair, and the five that close a successful
    one. *)
Definition prepare_calls (b : string) (o0 o1 : outcome) : list call :=
  [ran (cmd_delete_stale b) o0; ran (cmd_create b) o1].

Definition publish_commands (b : string) : list string :=
  [cmd_checkout b; cmd_reset b; cmd_push b; cmd_delete b; cmd_main].

Definition is_publish (b : string) (p : list call) : Prop :=
  exists o1 o2 o3 o4 o5,
    p = [ran (cmd_checkout b) o1; ran (cmd_reset b) o2; ran (cmd_push b) o3;
         ran (cmd_delete b) o4; ran cmd_main o5].

(** The calls one repair of branch [b] can make. *)
Inductive repair_calls (b : string) : list call -> Prop :=
| repair_log_failed o0 o1 r p :
    returncode r <> 0%Z -> is_publish b p ->
    repair_calls b (prepare_calls b o0 o1 ++ [logged b r] ++ p)
| repair_no_commit o0 o1 r :
    returncode r = 0%Z ->
    select_commit (commit_lines (stdout r)) = Returned None ->
    repair_calls b (prepare_calls b o0 o1 ++ [logged b r])
| repair_picked o0 o1 r h o p :
    returncode r = 0%Z ->
    select_commit (commit_lines (stdout r)) = Returned (Some h) ->
    succeeded o = true -> is_publish b p ->
    repair_calls b (prepare_calls b o0 o1 ++ [logged b r; ran (cmd_pick h) o] ++ p)
| repair_resolved o0 o1 r h o o4 o5 o6 p :
    returncode r = 0%Z ->
    select_commit (commit_lines (stdout r)) = Returned (Some h) ->
    succeeded o = false -> succeeded o6 = true -> is_publish b p ->
    repair_calls b
      (prepare_calls b o0 o1
       ++ [logged b r; ran (cmd_pick h) o; ran cmd_theirs o4; ran cmd_add o5;
           ran cmd_continue o6] ++ p)
| repair_aborted o0 o1 r h o o4 o5 o6 o7 :
    returncode r = 0%Z ->
    select_commit (commit_lines (stdout r)) = Returned (Some h) ->
    succeeded o = false -> succeeded o6 = false ->
    repair_calls b
      (prepare_calls b o0 o1
       ++ [logged b r; ran (cmd_pick h) o; ran cmd_theirs o4; ran cmd_add o5;
           ran cmd_continue o6; ran cmd_abort o7]).

(** How one repair of branch [b] can end: what it returns, the calls it
    started and the commands it handed to [subprocess.run].  It returns
    after calls of one of the five shapes above; or the branch name holds
    U+0000 and the first command is refused; or the log call never returns;
    or the selected token holds U+0000 and the cherry-pick is refused. *)
Inductive repair_run (b : string) : result unit -> list call -> list string -> Prop :=
| repair_returns cs :
    PyStr.has_nul b = false -> repair_calls b cs ->
    repair_run b (Returned tt) cs (map call_cmd cs)
| repair_refused_branch :
    PyStr.has_nul b = true ->
    repair_run b (Raised ValueError) [] [cmd_delete_stale b]
| repair_hung o0 o1 :
    PyStr.has_nul b = false ->
    repair_run b Blocked
      (prepare_calls b o0 o1 ++ [Call (cmd_log b) None Hung])
      [cmd_delete_stale b; cmd_create b; cmd_log b]
| repair_refused_pick o0 o1 r h :
    PyStr.has_nul b = false ->
    returncode r = 0%Z ->
    select_commit (commit_lines (stdout r)) = Returned (Some h) ->
    PyStr.has_nul h = true ->
    repair_run b (Raised ValueError)
      (prepare_calls b o0 o1 ++ [logged b r])
      [cmd_delete_stale b; cmd_create b; cmd_log b; cmd_pick h].

(** How the loop over a table can end: every repair returns, or the loop
    stops with the first repair that does not. *)
Inductive loop_run : list (string * string) -> result unit -> list call ->
                     list string -> Prop :=
| loop_done : loop_run [] (Returned tt) [] []
| loop_next b s table cs r cs' ks' :
    PyStr.has_nul b = false -> repair_calls b cs -> loop_run table r cs' ks' ->
    loop_run ((b, s) :: table) r (cs ++ cs') (map call_cmd cs ++ ks')
| loop_stop b s table r cs ks :
    repair_run b r cs ks -> r <> Returned tt ->
    loop_run ((b, s) :: table) r cs ks.

(** The command that opens the work on branch [b] is directly preceded by
    [git checkout main]. *)
Definition checkout_main_precedes (b : string) (cmds : list string) : Prop :=
  forall pre post,
    cmds = pre ++ cmd_delete_stale b :: post ->
    exists pre', pre = pre' ++ [cmd_main].

(** * Properties *)

(** ** Text *)

Example lower_mixed : PyStr.lower "Bump Cargo.LOCK" = "bump cargo.lock".
Proof. reflexivity. Qed.

Example split_line :
  PyStr.split "  abc1234 feat: add  tests " = ["abc1234"; "feat:"; "add"; "tests"].
Proof. reflexivity. Qed.

Example split_blank : PyStr.split "   " = [].
Proof. reflexivity. Qed.

Example split_on_empty : PyStr.split_on "010" "" = [""].
Proof. reflexivity. Qed.

Example strip_both : PyStr.strip "  a b  " = "a b".
Proof. reflexivity. Qed.

Example contains_mid : PyStr.contains "add" "feat: add tests" = true.
Proof. reflexivity. Qed.

Lemma startswith_spec (p s : string) :
  PyStr.startswith p s = true <-> exists q, s = (p ++ q)%string.
Proof.
  revert s; induction p as [|a p IH]; intros s; simpl.
  - split; [intros _; now exists s | reflexivity].
  - destruct s as [|b s].
    + split; [discriminate | intros [q Hq]; discriminate].
    + rewrite andb_true_iff, Ascii.eqb_eq, IH. split.
      * intros [-> [q ->]]. now exists q.
      * intros [q Hq]. injection Hq as -> ->. split; [reflexivity | now exists q].
Qed.

Lemma contains_spec (needle hay : string) :
  PyStr.contains needle hay = true <-> occurs_in needle hay.
Proof.
  unfold occurs_in. induction hay as [|c hay IH].
  - simpl. rewrite orb_false_r, startswith_spec. split.
    + intros [q Hq]. now exists EmptyString, q.
    + intros [pre [post H]]. destruct pre; [now exists post | discriminate].
  - cbn [PyStr.contains]. rewrite orb_true_iff, startswith_spec, IH. split.
    + intros [[q Hq] | [pre [post H]]].
      * now exists EmptyString, q.
      * exists (String c pre), post. simpl. now rewrite H.
    + intros [pre [post H]]. destruct pre as [|a pre].
      * left. now exists post.
      * right. injection H as _ H. now exists pre, post.
Qed.

Lemma contains_false (needle hay : string) :
  PyStr.contains needle hay = false <-> ~ occurs_in needle hay.
Proof.
  rewrite <- contains_spec. destruct (PyStr.contains needle hay); split; congruence.
Qed.

Lemma isspace_lower_char (c : ascii) :
  PyStr.isspace (PyStr.lower_char c) = PyStr.isspace c.
Proof. destruct c as [[] [] [] [] [] [] [] []]; reflexivity. Qed.

Lemma blank_lower (s : string) : blank (PyStr.lower s) = blank s.
Proof.
  induction s as [|c s IH]; simpl; [reflexivity |].
  now rewrite isspace_lower_char, IH.
Qed.

Lemma blank_app (s t : string) : blank (s ++ t) = blank s && blank t.
Proof.
  induction s as [|c s IH]; simpl; [reflexivity |].
  now rewrite IH, andb_assoc.
Qed.

(** A text in which a word starting with a visible character occurs is not
    blank. *)
Lemma occurs_not_blank (k : ascii) (word hay : string) :
  PyStr.isspace k = false -> occurs_in (String k word) hay -> blank hay = false.
Proof.
  intros Hk [pre [post ->]]. rewrite blank_app. simpl. rewrite Hk.
  now rewrite andb_false_r.
Qed.

Lemma split_from_nil (tok s : string) :
  PyStr.split_from tok s = [] <-> tok = EmptyString /\ blank s = true.
Proof.
  revert tok; induction s as [|c s IH]; intros tok; simpl.
  - destruct tok; split; intros H; easy.
  - destruct (PyStr.isspace c) eqn:Hc; simpl.
    + destruct tok.
      * rewrite IH. tauto.
      * split; [discriminate | intros [H _]; discriminate].
    + rewrite IH. split; [|intros [_ H]; discriminate].
      intros [H _]. destruct tok; discriminate.
Qed.

Lemma split_from_tokens (tok s x : string) :
  In x (PyStr.split_from tok s) -> x <> EmptyString.
Proof.
  revert tok; induction s as [|c s IH]; intros tok; simpl.
  - destruct tok; simpl; [tauto |]. intros [<- | []]. discriminate.
  - destruct (PyStr.isspace c).
    + destruct tok; simpl; [apply IH |].
      intros [<- | H]; [discriminate | now apply IH in H].
    + apply IH.
Qed.

(** *** Tokens and lines *)

Lemma append_nil_r (s : string) : (s ++ "")%string = s.
Proof. induction s as [|c s IH]; simpl; [reflexivity | now rewrite IH]. Qed.

Lemma append_assoc (s t u : string) : ((s ++ t) ++ u)%string = (s ++ t ++ u)%string.
Proof. induction s as [|c s IH]; simpl; [reflexivity | now rewrite IH]. Qed.

Lemma visible_app (s t : string) : visible (s ++ t) = visible s && visible t.
Proof.
  induction s as [|c s IH]; simpl; [reflexivity |].
  now rewrite IH, andb_assoc.
Qed.

Lemma split_from_head (tok s h : string) (tl : list string) :
  visible tok = true ->
  PyStr.split_from tok s = h :: tl ->
  exists ws u rest,
    s = (ws ++ u ++ rest)%string
    /\ blank ws = true /\ (tok <> EmptyString -> ws = EmptyString)
    /\ visible u = true /\ h = (tok ++ u)%string /\ h <> EmptyString
    /\ at_boundary rest = true.
Proof.
  revert tok; induction s as [|c s IH]; intros tok Hv E; simpl in E.
  - destruct tok as [|a tok]; [discriminate |]. injection E as <- _.
    exists EmptyString, EmptyString, EmptyString.
    repeat split; try easy. now rewrite append_nil_r.
  - destruct (PyStr.isspace c) eqn:Hc.
    + destruct tok as [|a tok].
      * destruct (IH EmptyString eq_refl E) as (ws & u & rest & -> & Hws & _ & Hu & -> & Hh & Hr).
        exists (String c ws), u, rest. simpl. rewrite Hc.
        repeat split; easy.
      * injection E as <- _.
        exists EmptyString, EmptyString, (String c s).
        simpl. repeat split; try easy. now rewrite append_nil_r.
    + assert (Hv' : visible (tok ++ String c "") = true).
      { rewrite visible_app, Hv. simpl. now rewrite Hc. }
      destruct (IH _ Hv' E) as (ws & u & rest & -> & _ & Hws & Hu & -> & Hh & Hr).
      assert (ws = EmptyString) as -> by (apply Hws; destruct tok; discriminate).
      exists EmptyString, (String c u), rest. simpl. rewrite Hc, Hu.
      rewrite append_assoc. simpl. repeat split; try easy.
      destruct tok; discriminate.
Qed.

Lemma hash_token_first_token (line h : string) :
  hash_token line = Some h -> first_token line h.
Proof.
  unfold hash_token, PyStr.split. destruct (PyStr.split_from "" line) as [|x tl] eqn:E;
    [discriminate |]. intros [= ->].
  destruct (split_from_head EmptyString _ _ _ eq_refl E) as (ws & u & rest & -> & Hws & _ & Hu & -> & Hh & Hr).
  exists ws, rest. simpl in *. repeat split; easy.
Qed.

Lemma split_from_blank (ws s : string) :
  blank ws = true ->
  PyStr.split_from EmptyString (ws ++ s) = PyStr.split_from EmptyString s.
Proof.
  induction ws as [|c ws IH]; simpl; [reflexivity |].
  intros H. apply andb_true_iff in H. destruct H as [-> H]. now apply IH.
Qed.

Lemma split_from_visible (tok u rest : string) :
  visible u = true ->
  PyStr.split_from tok (u ++ rest) = PyStr.split_from (tok ++ u) rest.
Proof.
  revert tok; induction u as [|c u IH]; intros tok; simpl.
  - now rewrite append_nil_r.
  - intros H. apply andb_true_iff in H. destruct H as [Hc H].
    apply negb_true_iff in Hc. rewrite Hc, (IH _ H), append_assoc. reflexivity.
Qed.

Lemma first_token_hash_token (line h : string) :
  first_token line h -> hash_token line = Some h.
Proof.
  intros (ws & rest & -> & Hws & Hh & Hv & Hr).
  unfold hash_token, PyStr.split.
  rewrite (split_from_blank _ _ Hws), (split_from_visible _ _ _ Hv). simpl.
  destruct rest as [|c rest]; simpl in *.
  - destruct h; [contradiction | reflexivity].
  - rewrite Hr. destruct h; [contradiction | reflexivity].
Qed.

Lemma split_on_not_nil (sep : ascii) (s : string) : PyStr.split_on sep s <> [].
Proof.
  destruct s as [|c s]; simpl; [discriminate |].
  destruct (Ascii.eqb c sep); [discriminate |].
  destruct (PyStr.split_on sep s); discriminate.
Qed.

Lemma split_on_join (sep : ascii) (s : string) :
  join sep (PyStr.split_on sep s) = s.
Proof.
  induction s as [|c s IH]; [reflexivity |].
  pose proof (split_on_not_nil sep s) as Hne. cbn [PyStr.split_on].
  destruct (Ascii.eqb_spec c sep) as [-> | Hc];
    destruct (PyStr.split_on sep s) as [|f fs]; try contradiction.
  - cbn [join]. now rewrite <- IH.
  - destruct fs as [|g fs]; cbn [join] in *; now rewrite <- IH.
Qed.

(** No line of [commit_lines] holds a newline. *)
Lemma split_on_fields (sep : ascii) (s f : string) :
  In f (PyStr.split_on sep s) -> ~ occurs_in (String sep EmptyString) f.
Proof.
  revert f; induction s as [|c s IH]; intros f; cbn [PyStr.split_on].
  - intros [<- | []] (pre & post & H). destruct pre; discriminate.
  - pose proof (split_on_not_nil sep s) as Hne.
    destruct (Ascii.eqb_spec c sep) as [-> | Hc].
    + intros [<- | H]; [| now apply IH].
      intros (pre & post & H). destruct pre; discriminate.
    + destruct (PyStr.split_on sep s) as [|g gs]; [contradiction |].
      intros [<- | H]; [| apply IH; now right].
      intros (pre & post & H). destruct pre as [|a pre]; simpl in H.
      * injection H as H _. contradiction.
      * injection H as _ H. apply (IH g); [now left | now exists pre, post].
Qed.

Lemma lstrip_spec (s : string) :
  exists ws, s = (ws ++ PyStr.lstrip s)%string /\ blank ws = true
             /\ match PyStr.lstrip s with
                | EmptyString => True
                | String c _ => PyStr.isspace c = false
                end.
Proof.
  induction s as [|c s (ws & E & Hws & H)]; simpl.
  - now exists EmptyString.
  - destruct (PyStr.isspace c) eqn:Hc.
    + exists (String c ws). simpl. rewrite Hc, <- E. now repeat split.
    + now exists EmptyString.
Qed.

Lemma rstrip_spec (s : string) :
  exists ws, s = (PyStr.rstrip s ++ ws)%string /\ blank ws = true
             /\ (PyStr.rstrip s = EmptyString
                 \/ exists t c, PyStr.rstrip s = (t ++ String c EmptyString)%string
                                /\ PyStr.isspace c = false).
Proof.
  induction s as [|c s (ws & E & Hws & H)]; cbn [PyStr.rstrip].
  - exists EmptyString. split; [reflexivity | split; [reflexivity | now left]].
  - destruct (PyStr.rstrip s) as [|a r] eqn:Er.
    + destruct (PyStr.isspace c) eqn:Hc.
      * exists (String c ws). cbn [append blank]. rewrite Hc, Hws.
        split; [now rewrite E at 1 | split; [reflexivity | now left]].
      * exists ws. cbn [append] in *.
        split; [now rewrite E at 1 | split; [exact Hws | right]].
        now exists EmptyString, c.
    + exists ws. cbn [append] in *.
      split; [now rewrite E at 1 | split; [exact Hws | right]].
      destruct H as [H | (t & k & H & Hk)]; [discriminate |].
      exists (String c t), k. cbn [append]. now rewrite H.
Qed.

(** ** Commit selection *)

Lemma has_keyword_spec (line : string) :
  has_keyword line = true <-> exists kw, In kw keywords /\ mentions kw line.
Proof.
  unfold has_keyword, mentions. rewrite existsb_exists.
  split; intros [kw [Hin H]]; exists kw; split; trivial; now apply contains_spec.
Qed.

Lemma not_excluded_spec (line : string) :
  not_excluded line = true <->
  ~ mentions "cargo.lock" line /\ ~ mentions "format" line.
Proof.
  unfold not_excluded, mentions.
  now rewrite andb_true_iff, !negb_true_iff, !contains_false.
Qed.

Lemma eligible_spec (line : string) :
  has_keyword line = true /\ not_excluded line = true <-> eligible line.
Proof. unfold eligible. now rewrite has_keyword_spec, not_excluded_spec. Qed.

Lemma not_eligible (line : string) :
  has_keyword line = false \/ not_excluded line = false -> ~ eligible line.
Proof.
  rewrite <- eligible_spec. intros [H | H] [H1 H2]; congruence.
Qed.

(** A line with a keyword has a visible character. *)
Lemma keyword_not_blank (line : string) :
  has_keyword line = true -> blank line = false.
Proof.
  rewrite has_keyword_spec. intros [kw [Hin Hm]].
  rewrite <- blank_lower. unfold mentions in Hm.
  simpl in Hin. destruct Hin as [<- | [<- | [<- | []]]];
    (eapply occurs_not_blank; [| exact Hm]; reflexivity).
Qed.

(** So [commit.split()] has a first element, which is not empty. *)
Lemma keyword_token (line : string) :
  has_keyword line = true ->
  exists h rest, PyStr.split line = h :: rest /\ h <> EmptyString.
Proof.
  intros H. apply keyword_not_blank in H.
  destruct (PyStr.split line) as [|h rest] eqn:E.
  - apply split_from_nil in E. destruct E as [_ E]. congruence.
  - exists h, rest. split; [reflexivity |].
    apply (split_from_tokens EmptyString line). fold (PyStr.split line).
    rewrite E. now left.
Qed.

(** The loop never raises; it returns the hash token of the first eligible
    line, which is not the empty string, or [None] when no line is eligible. *)
Lemma select_commit_spec (lines : list string) :
  exists sel,
    select_commit lines = Returned sel
    /\ selects eligible lines sel
    /\ truthy_commit sel = match sel with Some _ => true | None => false end.
Proof.
  induction lines as [|line rest IH]; simpl.
  - exists None. repeat split. constructor.
  - destruct (has_keyword line) eqn:Hk.
    + destruct (not_excluded line) eqn:Hx.
      * destruct (keyword_token line Hk) as (h & tl & E & Hh).
        rewrite E. simpl. exists (Some h). repeat split.
        -- exists line. split.
           ++ exists [], rest.
              split; [reflexivity | split; [constructor | now apply eligible_spec]].
           ++ unfold hash_token. now rewrite E.
        -- destruct h; [congruence | reflexivity].
      * destruct IH as (sel & E & Hs & Ht). exists sel. repeat split; trivial.
        assert (Hn : ~ eligible line) by (apply not_eligible; now right).
        destruct sel as [h|]; simpl in *.
        -- destruct Hs as (l & (before & after & -> & Hb & Hl) & Htok).
           exists l. split; trivial.
           exists (line :: before), after.
           split; [reflexivity | split; [now constructor | exact Hl]].
        -- now constructor.
    + destruct IH as (sel & E & Hs & Ht). exists sel. repeat split; trivial.
      assert (Hn : ~ eligible line) by (apply not_eligible; now left).
      destruct sel as [h|]; simpl in *.
      * destruct Hs as (l & (before & after & -> & Hb & Hl) & Htok).
        exists l. split; trivial.
        exists (line :: before), after.
           split; [reflexivity | split; [now constructor | exact Hl]].
      * now constructor.
Qed.

(** [selects] determines the selection. *)
Lemma first_such_unique (P : string -> Prop) (lines : list string) (l1 l2 : string) :
  first_such P lines l1 -> first_such P lines l2 -> l1 = l2.
Proof.
  intros (b1 & a1 & E1 & F1 & P1) (b2 & a2 & E2 & F2 & P2). subst lines.
  revert b2 E2 F2. induction b1 as [|x b1 IH]; intros b2 E2 F2.
  - destruct b2 as [|y b2]; simpl in E2.
    + now injection E2.
    + injection E2 as <- _. inversion F2; subst. contradiction.
  - destruct b2 as [|y b2]; simpl in E2.
    + injection E2 as -> _. inversion F1; subst. contradiction.
    + injection E2 as <- E2. inversion F1; inversion F2; subst. now apply (IH H2 b2).
Qed.

Lemma selects_none (P : string -> Prop) (lines : list string) (sel : option string) :
  selects P lines sel -> Forall (fun l => ~ P l) lines -> sel = None.
Proof.
  destruct sel as [h|]; [|reflexivity].
  intros (l & (before & after & -> & _ & Hl) & _) Hall.
  apply Forall_app in Hall. destruct Hall as [_ Hall]. inversion Hall; subst.
  contradiction.
Qed.

(** ** Running computations *)

Lemma calls_app (t1 t2 : list event) : calls (t1 ++ t2) = calls t1 ++ calls t2.
Proof.
  induction t1 as [|e t1 IH]; simpl; [reflexivity |].
  destruct e; simpl; now rewrite IH.
Qed.

Lemma commands_app (t1 t2 : list event) :
  commands (t1 ++ t2) = commands t1 ++ commands t2.
Proof.
  induction t1 as [|e t1 IH]; simpl; [reflexivity |].
  destruct e; simpl; now rewrite IH.
Qed.

(** *** Commands that hold U+0000 *)

Lemma has_nul_app (s t : string) :
  PyStr.has_nul (s ++ t) = PyStr.has_nul s || PyStr.has_nul t.
Proof.
  induction s as [|c s IH]; simpl; [reflexivity |].
  now rewrite IH, orb_assoc.
Qed.

(** Settles whether a command built from a branch name or a token holds
    U+0000, from what is known of the name or the token. *)
Ltac nul_free :=
  unfold cmd_delete_stale, cmd_create, cmd_log, cmd_checkout, cmd_reset, cmd_push,
    cmd_delete, cmd_pick, clean;
  rewrite ?has_nul_app;
  repeat match goal with
         | H : PyStr.has_nul _ = _ |- _ => rewrite H
         end;
  reflexivity.

Section DriverFacts.

Variable World : Type.
Variable spawn : World -> string -> option nat -> child * World.
Variable chdir : World -> string -> option World.

Lemma runs_value (A : Type) (m : M World A) (w w' : World) (r : result A)
    (cs : list call) (ks : list string) :
  runs m w r w' cs ks ->
  value_of m w = r /\ world_of m w = w' /\ calls_of m w = cs /\ commands_of m w = ks.
Proof.
  intros (t & E & <- & <-). unfold value_of, world_of, calls_of, commands_of, events_of.
  now rewrite E.
Qed.

Lemma runs_ret (A : Type) (a : A) (w : World) : runs (ret a) w (Returned a) w [] [].
Proof. now exists []. Qed.

Lemma runs_lift (A : Type) (a : A) (w : World) :
  runs (lift (Returned a)) w (Returned a) w [] [].
Proof. now exists []. Qed.

Lemma runs_print (m : message) (w : World) : runs (print m) w (Returned tt) w [] [].
Proof. now exists [Print m]. Qed.

Lemma runs_bind (A B : Type) (m : M World A) (f : A -> M World B) (w w1 w2 : World)
    (a : A) (r : result B) (c1 c2 : list call) (k1 k2 : list string) :
  runs m w (Returned a) w1 c1 k1 -> runs (f a) w1 r w2 c2 k2 ->
  runs (bind m f) w r w2 (c1 ++ c2) (k1 ++ k2).
Proof.
  intros (t1 & E1 & <- & <-) (t2 & E2 & <- & <-). exists (t1 ++ t2).
  unfold bind. rewrite E1, E2.
  split; [reflexivity | split; [apply calls_app | apply commands_app]].
Qed.

(** An exception, or a call that never returns, ends the computation it
    occurs in. *)
Lemma runs_bind_raised (A B : Type) (m : M World A) (f : A -> M World B)
    (w w1 : World) (e : exn) (c : list call) (k : list string) :
  runs m w (Raised e) w1 c k -> runs (bind m f) w (Raised e) w1 c k.
Proof.
  intros (t & E & <- & <-). exists t. unfold bind. rewrite E. now repeat split.
Qed.

Lemma runs_bind_blocked (A B : Type) (m : M World A) (f : A -> M World B)
    (w w1 : World) (c : list call) (k : list string) :
  runs m w Blocked w1 c k -> runs (bind m f) w Blocked w1 c k.
Proof.
  intros (t & E & <- & <-). exists t. unfold bind. rewrite E. now repeat split.
Qed.

Lemma runs_for_each_print (A : Type) (f : A -> message) (xs : list A) (w : World) :
  runs (for_each xs (fun x => print (f x))) w (Returned tt) w [] [].
Proof.
  induction xs as [|x xs IH]; simpl.
  - apply runs_ret.
  - exact (runs_bind _ _ _ _ w w w tt _ [] [] [] [] (runs_print _ _) IH).
Qed.

(** [run_cmd] on a command without U+0000 does not raise: it makes one call,
    with a timeout of 30, and returns whether that call succeeded; an expired
    call counts as failed. *)
Lemma runs_run_cmd (cmd : string) (w : World) :
  PyStr.has_nul cmd = false ->
  exists o w',
    runs (run_cmd spawn cmd) w (Returned (succeeded o)) w' [ran cmd o] [cmd].
Proof.
  intros Hn. unfold runs, run_cmd, try_except, bind, subprocess_run. rewrite Hn.
  destruct (spawn w cmd (Some 30)) as [p w'].
  destruct (ends_within 30 p).
  - exists (Exited (exit p)), w'. unfold when, print, ret.
    destruct (PyStr.truthy (stdout (exit p))), (PyStr.truthy (stderr (exit p)));
      eexists; repeat split.
  - exists Expired, w'. eexists. repeat split.
Qed.

(** On a command that holds U+0000 [run_cmd] lets the [ValueError] of
    [subprocess.run] through: its [except] clause names [TimeoutExpired]
    only. *)
Lemma runs_run_cmd_refused (cmd : string) (w : World) :
  PyStr.has_nul cmd = true ->
  runs (run_cmd spawn cmd) w (Raised ValueError) w [] [cmd].
Proof.
  intros Hn. unfold runs, run_cmd, try_except, bind, subprocess_run. rewrite Hn.
  eexists. repeat split.
Qed.

(** [subprocess.run] without a timeout returns whatever the child exits
    with, and does not return when the child does not exit. *)
Lemma runs_log (cmd : string) (w : World) :
  PyStr.has_nul cmd = false ->
  exists w',
    (exists r,
       runs (subprocess_run spawn cmd None) w (Returned r) w'
         [Call cmd None (Exited r)] [cmd])
    \/ runs (subprocess_run spawn cmd None) w Blocked w' [Call cmd None Hung] [cmd].
Proof.
  intros Hn. unfold runs, subprocess_run. rewrite Hn.
  destruct (spawn w cmd None) as [p w']. exists w'.
  destruct (duration p).
  - left. exists (exit p). eexists. repeat split.
  - right. eexists. repeat split.
Qed.

Ltac run rw :=
  cbv beta iota; try (progress rw; cbv beta iota);
  first
    [ apply runs_ret | apply runs_print | apply runs_lift
    | apply runs_for_each_print | eassumption
    | eapply runs_bind_raised; run rw
    | eapply runs_bind_blocked; run rw
    | eapply runs_bind; [run rw | run rw] ].

Lemma runs_eq (A : Type) (m : M World A) (w w' : World) (r : result A)
    (cs cs' : list call) (ks ks' : list string) :
  runs m w r w' cs ks -> cs = cs' -> ks = ks' -> runs m w r w' cs' ks'.
Proof. now intros H <- <-. Qed.

(** Runs the computation of the goal along the hypotheses on its calls,
    rewriting with [rw] where a test stands in the way. *)
Ltac follow rw := eapply runs_eq; [run rw | reflexivity | reflexivity].

Lemma publish_spec (b : string) (w : World) :
  PyStr.has_nul b = false ->
  exists w' p,
    runs (publish spawn b (clean b)) w (Returned tt) w' p (map call_cmd p)
    /\ is_publish b p.
Proof.
  intros Hb.
  destruct (runs_run_cmd (cmd_checkout b) w ltac:(nul_free)) as (o1 & w1 & H1).
  destruct (runs_run_cmd (cmd_reset b) w1 ltac:(nul_free)) as (o2 & w2 & H2).
  destruct (runs_run_cmd (cmd_push b) w2 ltac:(nul_free)) as (o3 & w3 & H3).
  destruct (runs_run_cmd (cmd_delete b) w3 ltac:(nul_free)) as (o4 & w4 & H4).
  destruct (runs_run_cmd cmd_main w4 ltac:(nul_free)) as (o5 & w5 & H5).
  exists w5, [ran (cmd_checkout b) o1; ran (cmd_reset b) o2; ran (cmd_push b) o3;
              ran (cmd_delete b) o4; ran cmd_main o5].
  split; [| now exists o1, o2, o3, o4, o5].
  unfold publish. destruct (succeeded o3) eqn:Ho3; follow idtac.
Qed.

(** One repair ends in one of the ways of [repair_run]. *)
Lemma repair_branch_spec (b s : string) (w : World) :
  exists r w' cs ks,
    runs (repair_branch spawn (b, s)) w r w' cs ks /\ repair_run b r cs ks.
Proof.
  unfold repair_branch, replay.
  destruct (PyStr.has_nul b) eqn:Hb.
  { pose proof (runs_run_cmd_refused (cmd_delete_stale b) w ltac:(nul_free)) as H0.
    exists (Raised ValueError), w, [], [cmd_delete_stale b].
    split; [follow idtac | now constructor]. }
  destruct (runs_run_cmd (cmd_delete_stale b) w ltac:(nul_free)) as (o0 & w0 & H0).
  destruct (runs_run_cmd (cmd_create b) w0 ltac:(nul_free)) as (o1 & w1 & H1).
  destruct (runs_log (cmd_log b) w1 ltac:(nul_free)) as (w2 & [(r & H2) | H2]).
  2: { exists Blocked, w2. do 2 eexists.
       split; [follow idtac | exact (repair_hung b o0 o1 Hb)]. }
  destruct (Z.eqb_spec (returncode r) 0) as [Hrc | Hrc].
  - pose proof (proj2 (Z.eqb_eq _ _) Hrc) as Hrc'.
    destruct (select_commit_spec (commit_lines (stdout r))) as (sel & E & _ & Ht).
    destruct sel as [h|]; simpl in Ht.
    + destruct (PyStr.has_nul h) eqn:Hh.
      { pose proof (runs_run_cmd_refused (cmd_pick h) w2 ltac:(nul_free)) as H3.
        exists (Raised ValueError), w2. do 2 eexists.
        split; [follow ltac:(rewrite ?Hrc', ?E, ?Ht)
               | exact (repair_refused_pick b o0 o1 r h Hb Hrc E Hh)]. }
      destruct (runs_run_cmd (cmd_pick h) w2 ltac:(nul_free)) as (o & w3 & H3).
      destruct (succeeded o) eqn:Ho.
      * destruct (publish_spec b w3 Hb) as (w4 & p & Hp & Pp).
        exists (Returned tt), w4. do 2 eexists.
        split; [follow ltac:(rewrite ?Hrc', ?E, ?Ht)
               | exact (repair_returns b _ Hb
                          (repair_picked b o0 o1 r h o p Hrc E Ho Pp))].
      * destruct (runs_run_cmd cmd_theirs w3 ltac:(nul_free)) as (o4 & w4 & H4).
        destruct (runs_run_cmd cmd_add w4 ltac:(nul_free)) as (o5 & w5 & H5).
        destruct (runs_run_cmd cmd_continue w5 ltac:(nul_free)) as (o6 & w6 & H6).
        destruct (succeeded o6) eqn:Ho6.
        -- destruct (publish_spec b w6 Hb) as (w7 & p & Hp & Pp).
           exists (Returned tt), w7. do 2 eexists.
           split; [follow ltac:(rewrite ?Hrc', ?E, ?Ht)
                  | exact (repair_returns b _ Hb
                             (repair_resolved b o0 o1 r h o o4 o5 o6 p Hrc E Ho Ho6 Pp))].
        -- destruct (runs_run_cmd cmd_abort w6 ltac:(nul_free)) as (o7 & w7 & H7).
           exists (Returned tt), w7. do 2 eexists.
           split; [follow ltac:(rewrite ?Hrc', ?E, ?Ht)
                  | exact (repair_returns b _ Hb
                             (repair_aborted b o0 o1 r h o o4 o5 o6 o7 Hrc E Ho Ho6))].
    + exists (Returned tt), w2. do 2 eexists.
      split; [follow ltac:(rewrite ?Hrc', ?E)
             | exact (repair_returns b _ Hb (repair_no_commit b o0 o1 r Hrc E))].
  - pose proof (proj2 (Z.eqb_neq _ _) Hrc) as Hrc'.
    destruct (publish_spec b w2 Hb) as (w3 & p & Hp & Pp).
    exists (Returned tt), w3. do 2 eexists.
    split; [follow ltac:(rewrite ?Hrc')
           | exact (repair_returns b _ Hb (repair_log_failed b o0 o1 r p Hrc Pp))].
Qed.

Lemma repair_branch_run (b s : string) (w : World) :
  repair_run b (value_of (repair_branch spawn (b, s)) w)
    (calls_of (repair_branch spawn (b, s)) w)
    (commands_of (repair_branch spawn (b, s)) w).
Proof.
  destruct (repair_branch_spec b s w) as (r & w' & cs & ks & H & Hr).
  apply runs_value in H. now destruct H as (-> & _ & -> & ->).
Qed.

(** The loop over the table ends in one of the ways of [loop_run]. *)
Lemma for_each_repair_spec (table : list (string * string)) (w : World) :
  exists r w' cs ks,
    runs (for_each table (repair_branch spawn)) w r w' cs ks /\ loop_run table r cs ks.
Proof.
  revert w; induction table as [|[b s] table IH]; intros w; cbn [for_each].
  - exists (Returned tt), w, [], []. split; [apply runs_ret | constructor].
  - destruct (repair_branch_spec b s w) as (r1 & w1 & c1 & k1 & H1 & R1).
    destruct R1 as [cs Hb Hc | | |].
    + destruct (IH w1) as (r2 & w2 & c2 & k2 & H2 & L2).
      exists r2, w2, (cs ++ c2), (map call_cmd cs ++ k2). split.
      * now apply (runs_bind _ _ _ _ w w1 w2 tt).
      * now apply loop_next.
    + do 4 eexists. split; [apply runs_bind_raised; exact H1 |].
      apply loop_stop; [now constructor | discriminate].
    + do 4 eexists. split; [apply runs_bind_blocked; exact H1 |].
      apply loop_stop; [now constructor | discriminate].
    + do 4 eexists. split; [apply runs_bind_raised; exact H1 |].
      apply loop_stop; [now constructor | discriminate].
Qed.

Lemma runs_chdir (path : string) (w w' : World) :
  chdir w path = Some w' -> runs (os_chdir chdir path) w (Returned tt) w' [] [].
Proof.
  intros E. exists [Chdir path true]. unfold os_chdir. now rewrite E.
Qed.

(** Once in the working directory, the run is [git checkout main] and then
    the loop; it ends as the loop ends. *)
Lemma driver_spec (table : list (string * string)) (w : World) :
  chdir w "/workspace" <> None ->
  exists o r w' cs ks,
    runs (driver spawn chdir table) w r w' (ran cmd_main o :: cs) (cmd_main :: ks)
    /\ loop_run table r cs ks.
Proof.
  intros Hdir. destruct (chdir w "/workspace") as [w0|] eqn:Edir; [| contradiction].
  apply runs_chdir in Edir.
  destruct (runs_run_cmd cmd_main w0 ltac:(nul_free)) as (o & w1 & H1).
  destruct (for_each_repair_spec table w1) as (r & w2 & cs & ks & H2 & L).
  exists o, r, w2, cs, ks. split; [| exact L]. unfold driver.
  destruct r as [[] | e |].
  - eapply runs_eq; [run idtac | |]; cbn [app]; now rewrite app_nil_r.
  - follow idtac.
  - follow idtac.
Qed.

End DriverFacts.

(** ** One repair *)

Lemma select_commit_selects (lines : list string) (sel : option string) :
  select_commit lines = Returned sel -> selects eligible lines sel.
Proof.
  intros E. destruct (select_commit_spec lines) as (sel' & E' & Hs & _).
  rewrite E in E'. now injection E' as <-.
Qed.

(** Case analysis on the calls of the repair of [(b, s)] from [w]. *)
Ltac open_shape H :=
  destruct H;
  repeat match goal with
         | P : is_publish _ _ |- _ => destruct P as (? & ? & ? & ? & ? & ->)
         end.

Ltac open_run H :=
  let Hs := fresh "Hs" in
  destruct H as [? ? Hs | ? | ? ? ? | ? ? ? ? ? ? ? ?]; [open_shape Hs | | |].

Ltac shape World spawn b s w :=
  let Hr := fresh "Hr" in
  let v := fresh "v" in
  let cs := fresh "cs" in
  let ks := fresh "ks" in
  pose proof (repair_branch_run World spawn b s w) as Hr;
  remember (value_of (repair_branch spawn (b, s)) w) as v;
  remember (calls_of (repair_branch spawn (b, s)) w) as cs;
  remember (commands_of (repair_branch spawn (b, s)) w) as ks;
  open_run Hr;
  cbn [app prepare_calls nth_error skipn firstn map call_cmd ran logged
       List.length] in *.

(** C1 (as amended): when the log call of a repair exits 0, the selection
    loop returns without raising; what it returns is the hash token of the
    first line of the window that is eligible -- the line as a whole, hash
    token included, contains a keyword and neither excluded word, all
    case-insensitively -- or nothing when no line is eligible; and the next
    command of the repair is the cherry-pick of exactly that token. *)
Theorem driver_picks_first_eligible_line (World : Type)
    (spawn : World -> string -> option nat -> child * World)
    (b s : string) (w : World) (r : CompletedProcess) :
  nth_error (calls_of (repair_branch spawn (b, s)) w) 2 = Some (logged b r) ->
  returncode r = 0%Z ->
  exists sel,
    select_commit (commit_lines (stdout r)) = Returned sel
    /\ selects eligible (commit_lines (stdout r)) sel
    /\ nth_error (commands_of (repair_branch spawn (b, s)) w) 3
       = option_map cmd_pick sel.
Proof.
  intros Hlog Hrc.
  shape World spawn b s w; try discriminate Hlog;
    injection Hlog as <-; try contradiction;
    match goal with
    | E : select_commit _ = Returned ?sel |- _ =>
        exists sel; split; [exact E | split; [exact (select_commit_selects _ _ E) |]]
    end; reflexivity.
Qed.

Lemma driver_picks_first_eligible_line_witness :
  nth_error (calls_of (Mock.repair Mock.target) Mock.pick_succeeds) 2
  = Some (logged (fst Mock.target) (exit (Mock.exits 0 Mock.window)))
  /\ returncode (exit (Mock.exits 0 Mock.window)) = 0%Z
  /\ exists sel,
       select_commit (commit_lines (stdout (exit (Mock.exits 0 Mock.window))))
       = Returned sel
       /\ selects eligible
            (commit_lines (stdout (exit (Mock.exits 0 Mock.window)))) sel
       /\ nth_error (commands_of (Mock.repair Mock.target) Mock.pick_succeeds) 3
          = option_map cmd_pick sel.
Proof.
  assert (H1 : nth_error (calls_of (Mock.repair Mock.target) Mock.pick_succeeds) 2
               = Some (logged (fst Mock.target) (exit (Mock.exits 0 Mock.window))))
    by (vm_compute; reflexivity).
  assert (H2 : returncode (exit (Mock.exits 0 Mock.window)) = 0%Z) by reflexivity.
  split; [exact H1 | split; [exact H2 |]].
  exact (driver_picks_first_eligible_line Mock.World Mock.spawn _ _ _ _ H1 H2).
Defined.

(** The window of the specification's example, in either order: [abc1234] is
    selected, and the line of [def5678] is not eligible. *)
Example selection_example :
  select_commit (commit_lines Mock.window) = Returned (Some "abc1234")
  /\ select_commit (commit_lines Mock.window_reversed) = Returned (Some "abc1234")
  /\ ~ eligible "def5678 chore: bump Cargo.lock".
Proof.
  split; [reflexivity | split; [reflexivity |]].
  apply not_eligible. right. reflexivity.
Qed.

(** C1 (as stated) fails: with the rule read on the subject text, the window
    [add1234 chore: bump deps / abc1234 feat: add integration tests] would
    select [abc1234]; the loop selects [add1234], whose hash contains the
    keyword [add]. *)
Lemma subject_rule_counterexample :
  ~ (forall out sel,
       (List.length (commit_lines out) <= 10)%nat ->
       select_commit (commit_lines out) = Returned sel ->
       selects subject_eligible (commit_lines out) sel).
Proof.
  intros H.
  specialize (H Mock.misleading_window (Some "add1234")).
  assert (Hlen : (List.length (commit_lines Mock.misleading_window) <= 10)%nat)
    by (vm_compute; lia).
  specialize (H Hlen eq_refl).
  destruct H as (line & (before & after & E & _ & Hl) & Htok).
  vm_compute in E.
  destruct before as [|x [|y before]]; simpl in E.
  - injection E as <- _. apply eligible_spec in Hl. destruct Hl as [Hk _].
    vm_compute in Hk. discriminate.
  - injection E as _ <- _. vm_compute in Htok. discriminate.
  - injection E as _ _ E. destruct before; discriminate.
Qed.




(** C3: when the cherry-pick of the selected commit fails, the next three
    calls are the checkout of the incoming [Cargo.lock], its staging and
    [cherry-pick --continue]; when the continuation succeeds the five publish
    commands follow; when it fails the only further call is
    [cherry-pick --abort], so the original branch is neither reset nor
    pushed. *)
Theorem failed_pick_applies_lockfile_policy (World : Type)
    (spawn : World -> string -> option nat -> child * World)
    (b s : string) (w : World) (h : string) (o : outcome) :
  nth_error (calls_of (repair_branch spawn (b, s)) w) 3 = Some (ran (cmd_pick h) o) ->
  succeeded o = false ->
  exists o4 o5 o6,
    firstn 3 (skipn 4 (calls_of (repair_branch spawn (b, s)) w))
    = [ran cmd_theirs o4; ran cmd_add o5; ran cmd_continue o6]
    /\ (if succeeded o6
        then map call_cmd (skipn 7 (calls_of (repair_branch spawn (b, s)) w))
             = publish_commands b
        else exists o7,
             skipn 7 (calls_of (repair_branch spawn (b, s)) w) = [ran cmd_abort o7]).
Proof.
  intros Hpick Ho. shape World spawn b s w; try discriminate Hpick;
    injection Hpick as _ <-; try congruence;
    do 3 eexists; (split; [reflexivity |]);
    match goal with
    | H : succeeded ?x = _ |- context [if succeeded ?x then _ else _] => rewrite H
    end.
  - reflexivity.
  - eexists. reflexivity.
Qed.

Lemma failed_pick_applies_lockfile_policy_witness :
  nth_error (calls_of (Mock.repair Mock.target) Mock.pick_aborted) 3
  = Some (ran (cmd_pick "abc1234") (Exited (exit (Mock.exits 1 ""))))
  /\ succeeded (Exited (exit (Mock.exits 1 ""))) = false
  /\ exists o4 o5 o6,
       firstn 3 (skipn 4 (calls_of (Mock.repair Mock.target) Mock.pick_aborted))
       = [ran cmd_theirs o4; ran cmd_add o5; ran cmd_continue o6]
       /\ (if succeeded o6
           then map call_cmd
                  (skipn 7 (calls_of (Mock.repair Mock.target) Mock.pick_aborted))
                = publish_commands (fst Mock.target)
           else exists o7,
                skipn 7 (calls_of (Mock.repair Mock.target) Mock.pick_aborted)
                = [ran cmd_abort o7]).
Proof.
  assert (H1 : nth_error (calls_of (Mock.repair Mock.target) Mock.pick_aborted) 3
               = Some (ran (cmd_pick "abc1234") (Exited (exit (Mock.exits 1 "")))))
    by (vm_compute; reflexivity).
  assert (H2 : succeeded (Exited (exit (Mock.exits 1 ""))) = false) by reflexivity.
  split; [exact H1 | split; [exact H2 |]].
  exact (failed_pick_applies_lockfile_policy Mock.World Mock.spawn _ _ _ _ _ H1 H2).
Defined.

(** C4 (as amended): when the log call exits 0 and no line of its window is
    eligible -- the rule read on the whole line, hash token included -- the
    repair ends right after the log call and returns normally: no
    cherry-pick and no push is issued, and nothing deletes the clean branch
    that the second command created. *)
Theorem no_eligible_line_abandons (World : Type)
    (spawn : World -> string -> option nat -> child * World)
    (b s : string) (w : World) (r : CompletedProcess) :
  nth_error (calls_of (repair_branch spawn (b, s)) w) 2 = Some (logged b r) ->
  returncode r = 0%Z ->
  Forall (fun l => ~ eligible l) (commit_lines (stdout r)) ->
  commands_of (repair_branch spawn (b, s)) w
  = [cmd_delete_stale b; cmd_create b; cmd_log b]
  /\ value_of (repair_branch spawn (b, s)) w = Returned tt
  /\ forall c, In c (commands_of (repair_branch spawn (b, s)) w) ->
       PyStr.startswith "git cherry-pick" c = false
       /\ PyStr.startswith "git push" c = false.
Proof.
  intros Hlog Hrc Hnone.
  assert (Hsel : forall h, select_commit (commit_lines (stdout r)) <> Returned (Some h)).
  { intros h E. apply select_commit_selects in E.
    now apply selects_none in E. }
  shape World spawn b s w; try discriminate Hlog;
    injection Hlog as <-; try contradiction;
    try (exfalso; eapply Hsel; eassumption).
  split; [reflexivity | split; [reflexivity |]].
  intros c [<- | [<- | [<- | []]]]; split; reflexivity.
Qed.

Lemma no_eligible_line_abandons_witness :
  nth_error (calls_of (Mock.repair Mock.target) Mock.no_candidate) 2
  = Some (logged (fst Mock.target) (exit (Mock.exits 0 Mock.lockfile_window)))
  /\ returncode (exit (Mock.exits 0 Mock.lockfile_window)) = 0%Z
  /\ Forall (fun l => ~ eligible l)
       (commit_lines (stdout (exit (Mock.exits 0 Mock.lockfile_window))))
  /\ commands_of (Mock.repair Mock.target) Mock.no_candidate
     = [cmd_delete_stale (fst Mock.target); cmd_create (fst Mock.target);
        cmd_log (fst Mock.target)]
  /\ value_of (Mock.repair Mock.target) Mock.no_candidate = Returned tt
  /\ forall c, In c (commands_of (Mock.repair Mock.target) Mock.no_candidate) ->
       PyStr.startswith "git cherry-pick" c = false
       /\ PyStr.startswith "git push" c = false.
Proof.
  assert (H1 : nth_error (calls_of (Mock.repair Mock.target) Mock.no_candidate) 2
               = Some (logged (fst Mock.target)
                         (exit (Mock.exits 0 Mock.lockfile_window))))
    by (vm_compute; reflexivity).
  assert (H2 : returncode (exit (Mock.exits 0 Mock.lockfile_window)) = 0%Z)
    by reflexivity.
  assert (H3 : Forall (fun l => ~ eligible l)
                 (commit_lines (stdout (exit (Mock.exits 0 Mock.lockfile_window))))).
  { change (Forall (fun l => ~ eligible l) ["def5678 chore: bump Cargo.lock"]).
    constructor; [| constructor]. apply not_eligible. right. reflexivity. }
  split; [exact H1 | split; [exact H2 | split; [exact H3 |]]].
  exact (no_eligible_line_abandons Mock.World Mock.spawn _ _ _ _ H1 H2 H3).
Defined.

(** C4 (as stated) fails: with the rule read on the subject text, no line
    of the window [add1234 chore: bump deps] matches; the loop tests the
    whole line, finds the keyword [add] in the hash, and the repair goes on
    to cherry-pick [add1234] and to force-push. *)
Lemma hash_keyword_counterexample :
  ~ (forall (World : Type) (spawn : World -> string -> option nat -> child * World)
       (b s : string) (w : World) (r : CompletedProcess),
       nth_error (calls_of (repair_branch spawn (b, s)) w) 2 = Some (logged b r) ->
       returncode r = 0%Z ->
       Forall (fun l => ~ subject_eligible l) (commit_lines (stdout r)) ->
       forall c, In c (commands_of (repair_branch spawn (b, s)) w) ->
         PyStr.startswith "git cherry-pick" c = false
         /\ PyStr.startswith "git push" c = false).
Proof.
  intros H.
  specialize (H Mock.World Mock.spawn (fst Mock.target) (snd Mock.target)
                Mock.hash_only (exit (Mock.exits 0 Mock.hash_only_window))).
  assert (H1 : nth_error (calls_of (Mock.repair Mock.target) Mock.hash_only) 2
               = Some (logged (fst Mock.target)
                         (exit (Mock.exits 0 Mock.hash_only_window))))
    by (vm_compute; reflexivity).
  assert (H3 : Forall (fun l => ~ subject_eligible l)
                 (commit_lines (stdout (exit (Mock.exits 0 Mock.hash_only_window))))).
  { change (Forall (fun l => ~ subject_eligible l) ["add1234 chore: bump deps"]).
    constructor; [| constructor]. unfold subject_eligible.
    change (subject "add1234 chore: bump deps") with "chore: bump deps".
    apply not_eligible. left. reflexivity. }
  specialize (H H1 eq_refl H3 (cmd_pick "add1234")).
  assert (Hin : In (cmd_pick "add1234")
                  (commands_of (Mock.repair Mock.target) Mock.hash_only)).
  { vm_compute. tauto. }
  destruct (H Hin) as [Hpick _]. vm_compute in Hpick. discriminate Hpick.
Qed.

(** C7: when the replay succeeds -- the cherry-pick succeeds, or it fails and
    [cherry-pick --continue] succeeds -- the commands that follow it are, in
    this order and with nothing after them: checkout of the original branch,
    hard reset to the clean branch, force-push of the original branch,
    deletion of the clean branch, checkout of main. *)
Theorem successful_replay_publishes (World : Type)
    (spawn : World -> string -> option nat -> child * World)
    (b s : string) (w : World) (h : string) (o : outcome) :
  nth_error (calls_of (repair_branch spawn (b, s)) w) 3 = Some (ran (cmd_pick h) o) ->
  (succeeded o = true
   \/ exists o6,
        nth_error (calls_of (repair_branch spawn (b, s)) w) 6
        = Some (ran cmd_continue o6)
        /\ succeeded o6 = true) ->
  skipn (if succeeded o then 4 else 7) (commands_of (repair_branch spawn (b, s)) w)
  = [cmd_checkout b; cmd_reset b; cmd_push b; cmd_delete b; cmd_main].
Proof.
  intros Hpick Hok. shape World spawn b s w; try discriminate Hpick;
    injection Hpick as _ <-;
    match goal with
    | H : succeeded ?x = _ |- context [if succeeded ?x then _ else _] => rewrite H
    end;
    try reflexivity.
  destruct Hok as [Hok | (o6' & H6 & Hok)]; [congruence |].
  injection H6 as <-. congruence.
Qed.

Lemma successful_replay_publishes_witness :
  nth_error (calls_of (Mock.repair Mock.target) Mock.pick_resolved) 3
  = Some (ran (cmd_pick "abc1234") (Exited (exit (Mock.exits 1 ""))))
  /\ (succeeded (Exited (exit (Mock.exits 1 ""))) = true
      \/ exists o6,
           nth_error (calls_of (Mock.repair Mock.target) Mock.pick_resolved) 6
           = Some (ran cmd_continue o6)
           /\ succeeded o6 = true)
  /\ skipn (if succeeded (Exited (exit (Mock.exits 1 ""))) then 4 else 7)
       (commands_of (Mock.repair Mock.target) Mock.pick_resolved)
     = [cmd_checkout (fst Mock.target); cmd_reset (fst Mock.target);
        cmd_push (fst Mock.target); cmd_delete (fst Mock.target); cmd_main].
Proof.
  assert (H1 : nth_error (calls_of (Mock.repair Mock.target) Mock.pick_resolved) 3
               = Some (ran (cmd_pick "abc1234") (Exited (exit (Mock.exits 1 "")))))
    by (vm_compute; reflexivity).
  assert (H2 : succeeded (Exited (exit (Mock.exits 1 ""))) = true
               \/ exists o6,
                    nth_error (calls_of (Mock.repair Mock.target) Mock.pick_resolved) 6
                    = Some (ran cmd_continue o6)
                    /\ succeeded o6 = true).
  { right. exists (Exited (exit Mock.quiet)). split; vm_compute; reflexivity. }
  split; [exact H1 | split; [exact H2 |]].
  exact (successful_replay_publishes Mock.World Mock.spawn _ _ _ _ _ H1 H2).
Defined.

(** C10: an eligible line is not empty, [split()] of it is not empty, and its
    first element exists and is not the empty string, so [commit.split()[0]]
    does not raise; and on an empty log output the loop selects nothing. *)
Theorem eligible_line_has_hash_token (line : string) :
  eligible line ->
  (line <> EmptyString
   /\ PyStr.split line <> []
   /\ exists h, item0 (PyStr.split line) = Returned h /\ h <> EmptyString)
  /\ select_commit (commit_lines EmptyString) = Returned None.
Proof.
  intros H. apply eligible_spec in H. destruct H as [Hk _].
  destruct (keyword_token line Hk) as (h & rest & E & Hh).
  split; [| reflexivity]. split; [| split].
  - intros ->. discriminate.
  - rewrite E. discriminate.
  - exists h. rewrite E. now split.
Qed.

Lemma eligible_line_has_hash_token_witness :
  eligible "abc1234 feat: add integration tests"
  /\ ("abc1234 feat: add integration tests" <> EmptyString
      /\ PyStr.split "abc1234 feat: add integration tests" <> []
      /\ exists h,
           item0 (PyStr.split "abc1234 feat: add integration tests") = Returned h
           /\ h <> EmptyString)
  /\ select_commit (commit_lines EmptyString) = Returned None.
Proof.
  assert (H : eligible "abc1234 feat: add integration tests").
  { apply eligible_spec. split; vm_compute; reflexivity. }
  split; [exact H |].
  exact (eligible_line_has_hash_token "abc1234 feat: add integration tests" H).
Defined.

(** ** The whole run *)

(** C5 fails on the code: on the executor where every command exits 0 with
    no output, both repairs are abandoned for want of a commit, and the first
    command on the second branch directly follows the log call of the first:
    no [git checkout main] stands between them. *)
Theorem abandoned_branch_skips_checkout_main :
  commands_of Mock.script []
  = [cmd_main;
     cmd_delete_stale "feature/add-server-components-tests";
     cmd_create "feature/add-server-components-tests";
     cmd_log "feature/add-server-components-tests";
     cmd_delete_stale "feature/add-integration-tests";
     cmd_create "feature/add-integration-tests";
     cmd_log "feature/add-integration-tests"]
  /\ ~ checkout_main_precedes "feature/add-integration-tests"
         (commands_of Mock.script []).
Proof.
  assert (E : commands_of Mock.script []
              = [cmd_main;
                 cmd_delete_stale "feature/add-server-components-tests";
                 cmd_create "feature/add-server-components-tests";
                 cmd_log "feature/add-server-components-tests";
                 cmd_delete_stale "feature/add-integration-tests";
                 cmd_create "feature/add-integration-tests";
                 cmd_log "feature/add-integration-tests"])
    by (vm_compute; reflexivity).
  split; [exact E |]. rewrite E. intros H.
  destruct (H [cmd_main;
               cmd_delete_stale "feature/add-server-components-tests";
               cmd_create "feature/add-server-components-tests";
               cmd_log "feature/add-server-components-tests"]
              [cmd_create "feature/add-integration-tests";
               cmd_log "feature/add-integration-tests"] eq_refl) as [pre' Hpre].
  apply (f_equal (@rev string)) in Hpre. rewrite rev_app_distr in Hpre.
  vm_compute in Hpre. discriminate Hpre.
Qed.

(** C6 fails on the code: the log call is made without a timeout.  With a
    log child that runs for 31 time units and exits 0, the driver takes its
    output and goes on to cherry-pick; the same child run through [run_cmd]
    expires and counts as a failure. *)
Theorem log_call_runs_without_timeout :
  nth_error (calls_of Mock.script Mock.slow_log) 3
  = Some (Call (cmd_log "feature/add-server-components-tests") None
            (Exited (exit (Mock.slow 31 0 Mock.window))))
  /\ nth_error (commands_of Mock.script Mock.slow_log) 4 = Some (cmd_pick "abc1234")
  /\ value_of (run_cmd Mock.spawn (cmd_log "feature/add-server-components-tests"))
       [Mock.slow 31 0 Mock.window] = Returned false
  /\ calls_of (run_cmd Mock.spawn (cmd_log "feature/add-server-components-tests"))
       [Mock.slow 31 0 Mock.window]
     = [Call (cmd_log "feature/add-server-components-tests") (Some 30) Expired].
Proof. repeat split; vm_compute; reflexivity. Qed.

(** C8: two tables with the same branch names, whatever their seed commits,
    give the same run from every world: the same result, the same final
    world and the same events. *)
Theorem seed_commit_is_dead (World : Type)
    (spawn : World -> string -> option nat -> child * World)
    (chdir : World -> string -> option World)
    (t1 t2 : list (string * string)) (w : World) :
  map fst t1 = map fst t2 ->
  driver spawn chdir t1 w = driver spawn chdir t2 w.
Proof.
  intros H.
  assert (E : forall v, for_each t1 (repair_branch spawn) v
                        = for_each t2 (repair_branch spawn) v).
  { revert t2 H. induction t1 as [|[b s1] t1 IH]; intros [|[b' s2] t2] H v;
      try discriminate; [reflexivity |].
    cbn [map fst] in H. injection H as <- H. cbn [for_each]. unfold bind.
    change (repair_branch spawn (b, s2) v) with (repair_branch spawn (b, s1) v).
    destruct (repair_branch spawn (b, s1) v) as [[[[] | e |] w1] tr];
      [| reflexivity | reflexivity].
    now rewrite (IH t2 H w1). }
  unfold driver, bind.
  destruct (print msg_start w) as [[[[] | e0 |] w0] tr0]; [| reflexivity | reflexivity].
  destruct (os_chdir chdir "/workspace" w0) as [[[[] | e1 |] w1] tr1];
    [| reflexivity | reflexivity].
  destruct (run_cmd spawn "git checkout main" w1) as [[[ok | e2 |] w2] tr2];
    [| reflexivity | reflexivity].
  now rewrite E.
Qed.

Lemma seed_commit_is_dead_witness :
  map fst remaining_branches
  = map fst [("feature/add-server-components-tests", "0000000");
             ("feature/add-integration-tests", "fffffff")]
  /\ driver Mock.spawn Mock.chdir remaining_branches Mock.slow_log
     = driver Mock.spawn Mock.chdir
         [("feature/add-server-components-tests", "0000000");
          ("feature/add-integration-tests", "fffffff")] Mock.slow_log.
Proof.
  assert (H : map fst remaining_branches
              = map fst [("feature/add-server-components-tests", "0000000");
                         ("feature/add-integration-tests", "fffffff")])
    by reflexivity.
  split; [exact H |].
  exact (seed_commit_is_dead Mock.World Mock.spawn Mock.chdir _ _ Mock.slow_log H).
Defined.

(** *** How the loop ends *)

Lemma driver_shape (World : Type)
    (spawn : World -> string -> option nat -> child * World)
    (chdir : World -> string -> option World)
    (table : list (string * string)) (w : World) :
  chdir w "/workspace" <> None ->
  exists o cs ks,
    calls_of (driver spawn chdir table) w = ran cmd_main o :: cs
    /\ commands_of (driver spawn chdir table) w = cmd_main :: ks
    /\ loop_run table (value_of (driver spawn chdir table) w) cs ks.
Proof.
  intros Hdir.
  destruct (driver_spec World spawn chdir table w Hdir) as (o & r & w' & cs & ks & H & L).
  apply runs_value in H. destruct H as (Hv & _ & Hc & Hk).
  exists o, cs, ks. now rewrite Hv, Hc, Hk.
Qed.






(** X12: without the working directory [main] stops on the exception of
    [os.chdir] before any command, and the exit status is 1. *)
Lemma main_without_workspace (World : Type)
    (spawn : World -> string -> option nat -> child * World)
    (chdir : World -> string -> option World) (w : World) :
  chdir w "/workspace" = None ->
  value_of (main spawn chdir) w = Raised (OSError "/workspace")
  /\ calls_of (main spawn chdir) w = []
  /\ exit_status (value_of (main spawn chdir) w) = Some 1%Z.
Proof.
  intros E. unfold value_of, calls_of, events_of, main, driver, bind, print, os_chdir.
  rewrite E. repeat split.
Qed.

(** * Further properties of the code *)

(** ** The loop as a whole *)

Lemma repair_calls_length (b : string) (cs : list call) :
  repair_calls b cs -> (3 <= List.length cs <= 12)%nat.
Proof.
  intros H. open_shape H; cbn [app prepare_calls List.length]; lia.
Qed.

Lemma loop_run_length (table : list (string * string)) (r : result unit)
    (cs : list call) (ks : list string) :
  loop_run table r cs ks ->
  (List.length cs <= 12 * List.length table)%nat
  /\ (r = Returned tt -> (3 * List.length table <= List.length cs)%nat).
Proof.
  induction 1 as [| b s table cs r cs' ks' Hb Hs L [IH1 IH2] | b s table r cs ks R Hr];
    cbn [List.length].
  - split; [lia | intros _; lia].
  - rewrite length_app. apply repair_calls_length in Hs.
    split; [lia | intros E; specialize (IH2 E); lia].
  - split; [| intros E; contradiction].
    destruct R as [cs Hb Hs | Hb | o0 o1 Hb | o0 o1 r h Hb Hrc E Hh];
      [contradiction | | |]; cbn [app prepare_calls List.length]; lia.
Qed.

(** X10: when the working directory can be entered, a run over a table of
    [n] branches starts at most [1 + 12 n] children, whatever the commands
    do, and at least [1 + 3 n] when it runs to its end. *)
Theorem run_call_bounds (World : Type)
    (spawn : World -> string -> option nat -> child * World)
    (chdir : World -> string -> option World)
    (table : list (string * string)) (w : World) :
  chdir w "/workspace" <> None ->
  (List.length (calls_of (driver spawn chdir table) w) <= 1 + 12 * List.length table)%nat
  /\ (value_of (driver spawn chdir table) w = Returned tt ->
      (1 + 3 * List.length table
       <= List.length (calls_of (driver spawn chdir table) w))%nat).
Proof.
  intros Hdir.
  destruct (driver_shape World spawn chdir table w Hdir) as (o & cs & ks & -> & _ & L).
  apply loop_run_length in L. destruct L as [L1 L2]. cbn [List.length].
  split; [lia | intros E; specialize (L2 E); lia].
Qed.

(** ** run_cmd *)


(** X2: an expired [run_cmd] call is a failed one: when the child of a
    command without U+0000 does not exit within 30 time units, [run_cmd]
    returns [False] after that single call, and prints the timeout line
    only. *)
Lemma run_cmd_expired (World : Type)
    (spawn : World -> string -> option nat -> child * World)
    (cmd : string) (w : World) :
  PyStr.has_nul cmd = false ->
  ends_within 30 (fst (spawn w cmd (Some 30))) = false ->
  value_of (run_cmd spawn cmd) w = Returned false
  /\ calls_of (run_cmd spawn cmd) w = [Call cmd (Some 30) Expired]
  /\ printed (events_of (run_cmd spawn cmd) w) = [msg_timeout cmd].
Proof.
  intros Hn H.
  unfold value_of, calls_of, events_of, run_cmd, try_except, bind, subprocess_run.
  rewrite Hn. destruct (spawn w cmd (Some 30)) as [p w']. simpl in H. rewrite H.
  repeat split.
Qed.

(** X3: when the child of a command without U+0000 ends within the timeout,
    [run_cmd] prints the command line first, then the stripped standard
    output if the output is not empty, then the stripped standard error if
    it is not empty, and nothing else. *)
Theorem run_cmd_completed_prints (World : Type)
    (spawn : World -> string -> option nat -> child * World)
    (cmd : string) (w : World) :
  PyStr.has_nul cmd = false ->
  ends_within 30 (fst (spawn w cmd (Some 30))) = true ->
  printed (events_of (run_cmd spawn cmd) w)
  = msg_exec cmd
    :: (if PyStr.truthy (stdout (exit (fst (spawn w cmd (Some 30)))))
        then [msg_stdout (PyStr.strip (stdout (exit (fst (spawn w cmd (Some 30))))))]
        else [])
    ++ (if PyStr.truthy (stderr (exit (fst (spawn w cmd (Some 30)))))
        then [msg_stderr (PyStr.strip (stderr (exit (fst (spawn w cmd (Some 30))))))]
        else []).
Proof.
  intros Hn H.
  unfold events_of, run_cmd, try_except, bind, subprocess_run. rewrite Hn.
  destruct (spawn w cmd (Some 30)) as [p w']. cbn [fst] in *. rewrite H.
  unfold when, print, ret.
  destruct (PyStr.truthy (stdout (exit p))), (PyStr.truthy (stderr (exit p)));
    reflexivity.
Qed.

(** ** Selection *)

(** X4: on every list of lines the selection loop returns without raising.
    A selected token is not empty, holds no white space, and is the first
    token of an eligible line of the list; when nothing is selected no line
    of the list is eligible. *)
Theorem select_commit_total (lines : list string) :
  exists sel,
    select_commit lines = Returned sel
    /\ match sel with
       | Some h =>
           h <> EmptyString /\ visible h = true
           /\ exists line, In line lines /\ eligible line /\ first_token line h
       | None => Forall (fun l => ~ eligible l) lines
       end.
Proof.
  destruct (select_commit_spec lines) as (sel & E & Hs & _).
  exists sel. split; [exact E |]. destruct sel as [h|]; [| exact Hs].
  destruct Hs as (line & (before & after & -> & _ & Hl) & Htok).
  apply hash_token_first_token in Htok.
  pose proof Htok as (ws & rest & _ & _ & Hne & Hv & _).
  split; [exact Hne | split; [exact Hv |]].
  exists line. split; [| now split]. apply in_or_app. right. now left.
Qed.

(** X5: the loop scans in order and stops at the first hit: on a window
    made of two parts, the result is that of the first part when it selects
    a commit, and that of the second part otherwise. *)
Theorem select_commit_app (xs ys : list string) :
  select_commit (xs ++ ys)
  = match select_commit xs with
    | Returned None => select_commit ys
    | r => r
    end.
Proof.
  induction xs as [|x xs IH]; cbn [app select_commit]; [reflexivity |].
  destruct (has_keyword x); [| exact IH].
  destruct (not_excluded x); [| exact IH].
  destruct (item0 (PyStr.split x)); reflexivity.
Qed.

(** X6: [result.stdout.strip().split('\n')] is never the empty list (so the
    window of an empty output is the single empty line), joining its lines
    with newlines gives back the stripped output, and no line holds a
    newline. *)
Theorem commit_lines_facts (out : string) :
  commit_lines out <> []
  /\ join "010" (commit_lines out) = PyStr.strip out
  /\ forall line, In line (commit_lines out) ->
       ~ occurs_in (String "010" EmptyString) line.
Proof.
  unfold commit_lines. split; [apply split_on_not_nil |].
  split; [apply split_on_join |].
  intros line. apply split_on_fields.
Qed.

(** *** Case *)

Lemma lower_char_idem (c : ascii) :
  PyStr.lower_char (PyStr.lower_char c) = PyStr.lower_char c.
Proof. destruct c as [[] [] [] [] [] [] [] []]; reflexivity. Qed.

Lemma lower_idem (s : string) : PyStr.lower (PyStr.lower s) = PyStr.lower s.
Proof.
  induction s as [|c s IH]; simpl; [reflexivity |].
  now rewrite lower_char_idem, IH.
Qed.

Lemma lower_app (s t : string) :
  PyStr.lower (s ++ t) = (PyStr.lower s ++ PyStr.lower t)%string.
Proof. induction s as [|c s IH]; simpl; [reflexivity | now rewrite IH]. Qed.

Lemma split_from_lower (tok s : string) :
  PyStr.split_from (PyStr.lower tok) (PyStr.lower s)
  = map PyStr.lower (PyStr.split_from tok s).
Proof.
  revert tok; induction s as [|c s IH]; intros tok; cbn [PyStr.lower PyStr.split_from].
  - destruct tok; reflexivity.
  - rewrite isspace_lower_char. destruct (PyStr.isspace c).
    + destruct tok as [|a tok]; cbn [PyStr.lower map].
      * exact (IH EmptyString).
      * now rewrite <- (IH EmptyString).
    + rewrite <- IH, lower_app. reflexivity.
Qed.

(** X7: the selection does not depend on case: on the lower-cased window
    the loop selects the same line, its token lower-cased, and selects
    nothing exactly when it selected nothing before. *)
Theorem selection_ignores_case (lines : list string) :
  select_commit (map PyStr.lower lines)
  = match select_commit lines with
    | Returned (Some h) => Returned (Some (PyStr.lower h))
    | r => r
    end.
Proof.
  induction lines as [|line lines IH]; cbn [map select_commit]; [reflexivity |].
  unfold has_keyword, not_excluded in *. rewrite lower_idem.
  destruct (existsb _ keywords); [| exact IH].
  destruct (negb _ && negb _); [| exact IH].
  unfold PyStr.split.
  change (PyStr.split_from "" (PyStr.lower line))
    with (PyStr.split_from (PyStr.lower "") (PyStr.lower line)).
  rewrite split_from_lower.
  destruct (PyStr.split_from "" line); reflexivity.
Qed.

(** ** Repairs and the run *)


Ltac push_neq :=
  match goal with
  | H : cmd_push _ = _ |- _ =>
      cbv [cmd_push cmd_delete_stale cmd_create cmd_log cmd_pick cmd_theirs
           cmd_add cmd_continue cmd_abort clean] in H;
      simpl in H; discriminate H
  end.

(** X9: a repair that issues the force-push of its branch issues it once, as
    the third of its last five commands: directly after the checkout of the
    branch and the hard reset to the clean branch, and directly before the
    deletion of the clean branch and the checkout of main. *)
Theorem push_follows_reset (World : Type)
    (spawn : World -> string -> option nat -> child * World)
    (b s : string) (w : World) :
  In (cmd_push b) (commands_of (repair_branch spawn (b, s)) w) ->
  exists pre,
    commands_of (repair_branch spawn (b, s)) w = pre ++ publish_commands b
    /\ ~ In (cmd_push b) pre.
Proof.
  shape World spawn b s w; cbn [In]; intros Hin.
  - exists [cmd_delete_stale b; cmd_create b; cmd_log b]. split; [reflexivity |].
    cbn [In]. intros [Eq | [Eq | [Eq | []]]]; symmetry in Eq; push_neq.
  - destruct Hin as [Eq | [Eq | [Eq | []]]]; symmetry in Eq; push_neq.
  - exists [cmd_delete_stale b; cmd_create b; cmd_log b; cmd_pick h].
    split; [reflexivity |].
    cbn [In]. intros [Eq | [Eq | [Eq | [Eq | []]]]]; symmetry in Eq; push_neq.
  - exists [cmd_delete_stale b; cmd_create b; cmd_log b; cmd_pick h;
            cmd_theirs; cmd_add; cmd_continue].
    split; [reflexivity |].
    cbn [In]. intros [Eq | [Eq | [Eq | [Eq | [Eq | [Eq | [Eq | []]]]]]]];
      symmetry in Eq; push_neq.
  - destruct Hin as [Eq | [Eq | [Eq | [Eq | [Eq | [Eq | [Eq | [Eq | []]]]]]]]];
      symmetry in Eq; push_neq.
  - destruct Hin as [Eq | []]; symmetry in Eq; push_neq.
  - destruct Hin as [Eq | [Eq | [Eq | []]]]; symmetry in Eq; push_neq.
  - destruct Hin as [Eq | [Eq | [Eq | [Eq | []]]]]; symmetry in Eq; push_neq.
Qed.

Lemma repair_calls_logs (b : string) (cs : list call) :
  repair_calls b cs ->
  filter (PyStr.startswith "git log") (map call_cmd cs) = [cmd_log b].
Proof. intros H. open_shape H; vm_compute; reflexivity. Qed.

Lemma loop_run_logs (table : list (string * string)) (r : result unit)
    (cs : list call) (ks : list string) :
  loop_run table r cs ks ->
  r = Returned tt ->
  filter (PyStr.startswith "git log") ks = map cmd_log (map fst table).
Proof.
  induction 1 as [| b s table cs r cs' ks' Hb Hs L IH | b s table r cs ks R Hr];
    intros E.
  - reflexivity.
  - rewrite filter_app, (IH E), (repair_calls_logs _ _ Hs). reflexivity.
  - contradiction.
Qed.

(** X13: in a run that reaches its end, the log commands are those of the
    branches of the table, each once and in table order: an abandoned
    repair, or one whose commands fail or expire, does not keep the next
    branch from being processed. *)
Theorem every_branch_is_visited (World : Type)
    (spawn : World -> string -> option nat -> child * World)
    (chdir : World -> string -> option World)
    (table : list (string * string)) (w : World) :
  value_of (driver spawn chdir table) w = Returned tt ->
  filter (PyStr.startswith "git log") (commands_of (driver spawn chdir table) w)
  = map cmd_log (map fst table).
Proof.
  intros E. destruct (chdir w "/workspace") as [w0|] eqn:Edir.
  - assert (Hdir : chdir w "/workspace" <> None) by congruence.
    destruct (driver_shape World spawn chdir table w Hdir) as (o & cs & ks & _ & -> & L).
    cbn [filter].
    change (PyStr.startswith "git log" cmd_main) with false. cbv iota.
    exact (loop_run_logs _ _ _ _ L E).
  - exfalso. revert E. unfold value_of, driver, bind, print, os_chdir.
    rewrite Edir. discriminate.
Qed.

Lemma printed_app (t1 t2 : list event) : printed (t1 ++ t2) = printed t1 ++ printed t2.
Proof.
  induction t1 as [|e t1 IH]; simpl; [reflexivity |].
  destruct e; simpl; now rewrite IH.
Qed.

Lemma verdicts_app (t1 t2 : list event) : verdicts (t1 ++ t2) = verdicts t1 ++ verdicts t2.
Proof. unfold verdicts. now rewrite printed_app, filter_app. Qed.

Lemma run_cmd_events (World : Type)
    (spawn : World -> string -> option nat -> child * World)
    (cmd : string) (w : World) :
  PyStr.has_nul cmd = false ->
  exists o w' t,
    run_cmd spawn cmd w = (Returned (succeeded o), w', t)
    /\ calls t = [ran cmd o] /\ verdicts t = [].
Proof.
  intros Hn. unfold run_cmd, try_except, bind, subprocess_run. rewrite Hn.
  destruct (spawn w cmd (Some 30)) as [p w'].
  destruct (ends_within 30 p).
  - exists (Exited (exit p)), w'. unfold when, print, ret.
    destruct (PyStr.truthy (stdout (exit p))), (PyStr.truthy (stderr (exit p)));
      eexists; repeat split.
  - exists Expired, w'. eexists. repeat split.
Qed.

Ltac step_run_cmd World spawn :=
  match goal with
  | |- context [run_cmd spawn ?c ?w] =>
      let o := fresh "o" in
      let w' := fresh "w" in
      let t := fresh "t" in
      let E := fresh "E" in
      let C := fresh "C" in
      let V := fresh "V" in
      destruct (run_cmd_events World spawn c w ltac:(nul_free))
        as (o & w' & t & E & C & V);
      rewrite E; cbv beta iota zeta
  end.

(** X14: the publish step (lines 82-96) for a branch whose name holds no
    U+0000 makes its five calls whatever their outcomes, and prints exactly
    one verdict line: the success line when the push call succeeded, the
    failure line otherwise; the outcomes of the checkout, of the reset and
    of the clean-up do not enter. *)
Theorem publish_reports_push (World : Type)
    (spawn : World -> string -> option nat -> child * World)
    (b : string) (w : World) :
  PyStr.has_nul b = false ->
  exists o1 o2 o3 o4 o5,
    calls_of (publish spawn b (clean b)) w
    = [ran (cmd_checkout b) o1; ran (cmd_reset b) o2; ran (cmd_push b) o3;
       ran (cmd_delete b) o4; ran cmd_main o5]
    /\ verdicts (events_of (publish spawn b (clean b)) w)
       = [if succeeded o3 then msg_repaired b else msg_push_failed b].
Proof.
  intros Hb.
  unfold calls_of, events_of, publish, bind, print, ret. cbv beta iota zeta.
  step_run_cmd World spawn. step_run_cmd World spawn. step_run_cmd World spawn.
  destruct (succeeded o1) eqn:Hpush; cbv beta iota zeta;
    step_run_cmd World spawn; step_run_cmd World spawn; cbn [snd];
    exists o, o0, o1, o2, o3; rewrite Hpush;
    (split;
     [ rewrite !calls_app; cbn [calls app]; rewrite C, C0, C1, C2, C3; reflexivity
     | rewrite !verdicts_app; rewrite V, V0, V1, V2, V3; reflexivity ]).
Qed.

Lemma append_cancel_l (s t u : string) : (s ++ t)%string = (s ++ u)%string -> t = u.
Proof.
  induction s as [|c s IH]; simpl; [trivial |]. intros [= H]. now apply IH.
Qed.

Lemma delete_not_stale (b : string) : cmd_delete b <> cmd_delete_stale b.
Proof.
  unfold cmd_delete, cmd_delete_stale, clean. intros H.
  apply append_cancel_l in H.
  rewrite <- (append_nil_r (b ++ "-clean")) in H at 1.
  rewrite !append_assoc in H. apply append_cancel_l in H. discriminate H.
Qed.

Ltac cmd_neq :=
  match goal with
  | H : cmd_delete ?b = cmd_delete_stale ?b |- _ => now apply delete_not_stale in H
  | H : _ = _ |- _ =>
      cbv [cmd_push cmd_delete cmd_main cmd_delete_stale cmd_create cmd_log cmd_pick
           cmd_theirs cmd_add cmd_continue cmd_abort cmd_checkout cmd_reset clean] in H;
      simpl in H; discriminate H
  end.

(** X15: a repair, of a branch whose name holds no U+0000, that starts no
    force-push starts neither the deletion of the clean branch it created
    nor the checkout of main, and starts exactly 3 commands (nothing was
    picked) or 8 (the cherry-pick was aborted). *)
Theorem abandoned_repair_cleans_nothing (World : Type)
    (spawn : World -> string -> option nat -> child * World)
    (b s : string) (w : World) :
  PyStr.has_nul b = false ->
  ~ In (cmd_push b) (map call_cmd (calls_of (repair_branch spawn (b, s)) w)) ->
  ~ In (cmd_delete b) (map call_cmd (calls_of (repair_branch spawn (b, s)) w))
  /\ ~ In cmd_main (map call_cmd (calls_of (repair_branch spawn (b, s)) w))
  /\ (List.length (map call_cmd (calls_of (repair_branch spawn (b, s)) w)) = 3
      \/ List.length (map call_cmd (calls_of (repair_branch spawn (b, s)) w)) = 8).
Proof.
  intros Hb. shape World spawn b s w; try congruence; cbn [In]; intros Hno;
    try (exfalso; apply Hno; tauto).
  - split; [| split; [| now left]];
      intros [Eq | [Eq | [Eq | []]]]; symmetry in Eq; cmd_neq.
  - split; [| split; [| now right]];
      intros [Eq | [Eq | [Eq | [Eq | [Eq | [Eq | [Eq | [Eq | []]]]]]]]];
      symmetry in Eq; cmd_neq.
  - split; [| split; [| now left]];
      intros [Eq | [Eq | [Eq | []]]]; symmetry in Eq; cmd_neq.
  - split; [| split; [| now left]];
      intros [Eq | [Eq | [Eq | []]]]; symmetry in Eq; cmd_neq.
Qed.

(** ** Instances *)

Lemma run_cmd_expired_witness :
  PyStr.has_nul (cmd_push "topic") = false
  /\ ends_within 30 (fst (Mock.spawn [Mock.stuck] (cmd_push "topic") (Some 30))) = false
  /\ value_of (run_cmd Mock.spawn (cmd_push "topic")) [Mock.stuck] = Returned false
  /\ calls_of (run_cmd Mock.spawn (cmd_push "topic")) [Mock.stuck]
     = [Call (cmd_push "topic") (Some 30) Expired]
  /\ printed (events_of (run_cmd Mock.spawn (cmd_push "topic")) [Mock.stuck])
     = [msg_timeout (cmd_push "topic")].
Proof.
  assert (H1 : PyStr.has_nul (cmd_push "topic") = false) by reflexivity.
  assert (H2 : ends_within 30 (fst (Mock.spawn [Mock.stuck] (cmd_push "topic")
                                      (Some 30))) = false)
    by reflexivity.
  split; [exact H1 | split; [exact H2 |]].
  exact (run_cmd_expired Mock.World Mock.spawn (cmd_push "topic") [Mock.stuck] H1 H2).
Defined.

Lemma run_cmd_completed_prints_witness :
  PyStr.has_nul cmd_main = false
  /\ ends_within 30 (fst (Mock.spawn [Mock.chatty] cmd_main (Some 30))) = true
  /\ printed (events_of (run_cmd Mock.spawn cmd_main) [Mock.chatty])
     = msg_exec cmd_main
       :: (if PyStr.truthy (stdout (exit (fst (Mock.spawn [Mock.chatty] cmd_main
                                                 (Some 30)))))
           then [msg_stdout
                   (PyStr.strip (stdout (exit (fst (Mock.spawn [Mock.chatty] cmd_main
                                                      (Some 30))))))]
           else [])
       ++ (if PyStr.truthy (stderr (exit (fst (Mock.spawn [Mock.chatty] cmd_main
                                                 (Some 30)))))
           then [msg_stderr
                   (PyStr.strip (stderr (exit (fst (Mock.spawn [Mock.chatty] cmd_main
                                                      (Some 30))))))]
           else []).
Proof.
  assert (H1 : PyStr.has_nul cmd_main = false) by reflexivity.
  assert (H2 : ends_within 30 (fst (Mock.spawn [Mock.chatty] cmd_main (Some 30))) = true)
    by reflexivity.
  split; [exact H1 | split; [exact H2 |]].
  exact (run_cmd_completed_prints Mock.World Mock.spawn cmd_main [Mock.chatty] H1 H2).
Defined.


Lemma push_follows_reset_witness :
  In (cmd_push (fst Mock.target))
    (commands_of (Mock.repair Mock.target) Mock.pick_succeeds)
  /\ exists pre,
       commands_of (Mock.repair Mock.target) Mock.pick_succeeds
       = pre ++ publish_commands (fst Mock.target)
       /\ ~ In (cmd_push (fst Mock.target)) pre.
Proof.
  assert (H : In (cmd_push (fst Mock.target))
                (commands_of (Mock.repair Mock.target) Mock.pick_succeeds))
    by (vm_compute; tauto).
  split; [exact H |].
  exact (push_follows_reset Mock.World Mock.spawn _ _ Mock.pick_succeeds H).
Defined.

Lemma run_call_bounds_witness :
  Mock.chdir Mock.slow_log "/workspace" <> None
  /\ (List.length (calls_of (driver Mock.spawn Mock.chdir remaining_branches)
                     Mock.slow_log)
      <= 1 + 12 * List.length remaining_branches)%nat
  /\ (value_of (driver Mock.spawn Mock.chdir remaining_branches) Mock.slow_log
      = Returned tt ->
      (1 + 3 * List.length remaining_branches
       <= List.length (calls_of (driver Mock.spawn Mock.chdir remaining_branches)
                         Mock.slow_log))%nat).
Proof.
  assert (H : Mock.chdir Mock.slow_log "/workspace" <> None)
    by (vm_compute; discriminate).
  split; [exact H |].
  exact (run_call_bounds Mock.World Mock.spawn Mock.chdir remaining_branches
           Mock.slow_log H).
Defined.

Lemma every_branch_is_visited_witness :
  value_of (driver Mock.spawn Mock.chdir remaining_branches) Mock.pick_aborted
  = Returned tt
  /\ filter (PyStr.startswith "git log")
       (commands_of (driver Mock.spawn Mock.chdir remaining_branches)
          Mock.pick_aborted)
     = map cmd_log (map fst remaining_branches).
Proof.
  assert (H : value_of (driver Mock.spawn Mock.chdir remaining_branches)
                Mock.pick_aborted = Returned tt)
    by (vm_compute; reflexivity).
  split; [exact H |].
  exact (every_branch_is_visited Mock.World Mock.spawn Mock.chdir remaining_branches
           Mock.pick_aborted H).
Defined.

Lemma main_without_workspace_witness :
  Mock.no_workspace Mock.slow_log "/workspace" = None
  /\ value_of (main Mock.spawn Mock.no_workspace) Mock.slow_log
     = Raised (OSError "/workspace")
  /\ calls_of (main Mock.spawn Mock.no_workspace) Mock.slow_log = []
  /\ exit_status (value_of (main Mock.spawn Mock.no_workspace) Mock.slow_log)
     = Some 1%Z.
Proof.
  assert (H : Mock.no_workspace Mock.slow_log "/workspace" = None) by reflexivity.
  split; [exact H |].
  exact (main_without_workspace Mock.World Mock.spawn Mock.no_workspace
           Mock.slow_log H).
Defined.

Lemma publish_reports_push_witness :
  PyStr.has_nul (fst Mock.target) = false
  /\ exists o1 o2 o3 o4 o5,
       calls_of (publish Mock.spawn (fst Mock.target) (clean (fst Mock.target)))
         [Mock.quiet; Mock.quiet; Mock.stuck]
       = [ran (cmd_checkout (fst Mock.target)) o1; ran (cmd_reset (fst Mock.target)) o2;
          ran (cmd_push (fst Mock.target)) o3; ran (cmd_delete (fst Mock.target)) o4;
          ran cmd_main o5]
       /\ verdicts (events_of
                      (publish Mock.spawn (fst Mock.target) (clean (fst Mock.target)))
                      [Mock.quiet; Mock.quiet; Mock.stuck])
          = [if succeeded o3 then msg_repaired (fst Mock.target)
             else msg_push_failed (fst Mock.target)].
Proof.
  assert (H : PyStr.has_nul (fst Mock.target) = false) by reflexivity.
  split; [exact H |].
  exact (publish_reports_push Mock.World Mock.spawn (fst Mock.target)
           [Mock.quiet; Mock.quiet; Mock.stuck] H).
Defined.

Lemma abandoned_repair_cleans_nothing_witness :
  PyStr.has_nul (fst Mock.target) = false
  /\ ~ In (cmd_push (fst Mock.target))
         (map call_cmd (calls_of (Mock.repair Mock.target) Mock.pick_aborted))
  /\ ~ In (cmd_delete (fst Mock.target))
         (map call_cmd (calls_of (Mock.repair Mock.target) Mock.pick_aborted))
  /\ ~ In cmd_main (map call_cmd (calls_of (Mock.repair Mock.target) Mock.pick_aborted))
  /\ (List.length (map call_cmd (calls_of (Mock.repair Mock.target) Mock.pick_aborted))
      = 3
      \/ List.length (map call_cmd (calls_of (Mock.repair Mock.target) Mock.pick_aborted))
         = 8).
Proof.
  assert (H1 : PyStr.has_nul (fst Mock.target) = false) by reflexivity.
  assert (H2 : ~ In (cmd_push (fst Mock.target))
                   (map call_cmd (calls_of (Mock.repair Mock.target) Mock.pick_aborted))).
  { vm_compute. intros [E | [E | [E | [E | [E | [E | [E | [E | []]]]]]]]];
      discriminate E. }
  split; [exact H1 | split; [exact H2 |]].
  exact (abandoned_repair_cleans_nothing Mock.World Mock.spawn _ _ Mock.pick_aborted
           H1 H2).
Defined.
